(** * DynamoDBConnectionManager

    A shallow embedding of
    [packages/aws-lambda-graphql/src/DynamoDBConnectionManager.ts].

    The manager talks to three collaborators: the DynamoDB document client
    ([this.db]), the API Gateway management client and the subscription
    manager.  Every call that leaves the manager is an [Event]; a method is
    a program over these events ([Prog]), with the manager object [this] as
    explicit state and JavaScript exceptions as [Thrown] completions ([M]).
    Programs are run against an arbitrary handler of the events, which
    records the interactions in a trace. *)

From Stdlib Require Import ZArith Ascii String List Lia.
From stdpp Require Import gmap strings list.
From Equations Require Import Equations.
Import ListNotations.

Local Open Scope string_scope.
Local Open Scope Z_scope.
Local Open Scope list_scope.

(** ** Data model *)

(** [IConnectionData]: [{ endpoint, context, isInitialized }]. *)
Record IConnectionData := {
  endpoint : string;
  context : gmap string string;
  isInitialized : bool
}.

(** [DynamoDBConnection] (an [IConnection] with an optional [ttl]) and the
    items of the connections table share one shape: [id] and [data] are
    always there, [createdAt] and [ttl] are attributes that an object may
    lack ([None]).  [createdAt] holds the instant that
    [new Date().toString()] renders; [ttl] is in UNIX seconds. *)
Record DynamoDBConnection := {
  conn_id : string;
  conn_data : IConnectionData;
  conn_createdAt : option Z;
  conn_ttl : option Z
}.

(** [IConnectEvent]: the two fields the manager destructures, and whatever
    else the event carries. *)
Record IConnectEvent := {
  ev_connectionId : string;
  ev_endpoint : string;
  ev_others : gmap string string
}.

(** [HydrateConnectionOptions]: both fields are optional. *)
Record HydrateConnectionOptions := {
  retryCount : option Z;
  timeout : option Z
}.

(** Values that the code throws or that a collaborator rejects with.  A
    collaborator's error may carry a [statusCode] property. *)
Inductive JsError :=
| ConnectionNotFoundError (message : string)
| ReferenceError (message : string)
| AssertionError (message : string)
| ServiceError (name : string) (code : option Z).

(** [e.statusCode] *)
Definition statusCode (e : JsError) : option Z :=
  match e with
  | ServiceError _ code => code
  | _ => None
  end.

(** An [ApiGatewayManagementApiClient], identified by the configuration it
    was built with. *)
Record ApiGatewayManagementApiClient := {
  client_endpoint : string
}.

(** The fields of the manager object.  [ttl = None] is [ttl === false].
    [this.db] and [this.subscriptions] are the collaborators behind the
    events below. *)
Record DynamoDBConnectionManager := {
  apiGatewayManager : option ApiGatewayManagementApiClient;
  connectionsTable : string;
  ttl : option Z;
  debug : bool
}.

Definition DEFAULT_TTL : Z := 7200.

(** ** Commands and events *)

(** The commands of [@aws-sdk/lib-dynamodb] that the manager builds, with
    the input fields it sets. *)
Inductive DbCommand :=
| GetCommand (TableName : string) (Key : string)
| PutCommand (TableName : string) (Item : DynamoDBConnection)
| UpdateCommand (TableName : string) (Key : string)
    (UpdateExpression : string)
    (ExpressionAttributeValues : list (string * IConnectionData))
    (ExpressionAttributeNames : list (string * string))
| DeleteCommand (Key : string) (TableName : string).

(** The output of a command; only [Item] is ever looked at. *)
Record DbOutput := { Item : option DynamoDBConnection }.

Inductive ApiCommand :=
| PostToConnectionCommand (ConnectionId : string) (Data : string)
| DeleteConnectionCommand (ConnectionId : string).

Inductive LogArg :=
| LogString (s : string)
| LogData (d : IConnectionData).

(** An event is indexed by what the environment answers.  A promise
    settles to [inl error] (rejected) or [inr value] (fulfilled).
    [RejectedFirst] asks the scheduler which of two rejected promises was
    rejected first ([true]: the first one in the array). *)
Inductive Event : Type -> Type :=
| DbSend (c : DbCommand) : Event (JsError + DbOutput)
| ApiSend (client : ApiGatewayManagementApiClient) (c : ApiCommand) : Event (JsError + unit)
| UnsubscribeAllByConnectionId (connectionId : string) : Event (JsError + unit)
| SetTimeout (ms : Z) : Event unit
| DateNow : Event Z
| ConsoleLog (args : list LogArg) : Event unit
| ConsoleInfo (args : list LogArg) : Event unit
| RejectedFirst : Event bool.

(** ** Programs *)

Inductive Prog (A : Type) : Type :=
| Ret (a : A)
| Vis {X : Type} (e : Event X) (k : X -> Prog A).

Arguments Ret {A} a.
Arguments Vis {A X} e k.

Fixpoint bind {A B : Type} (p : Prog A) (k : A -> Prog B) : Prog B :=
  match p with
  | Ret a => k a
  | Vis e f => Vis e (fun x => bind (f x) k)
  end.

Inductive Completion (A : Type) : Type :=
| Normal (a : A)
| Thrown (e : JsError).

Arguments Normal {A} a.
Arguments Thrown {A} e.

(** A method body: reads and writes [this], interacts, completes. *)
Definition M (A : Type) : Type :=
  DynamoDBConnectionManager -> Prog (Completion A * DynamoDBConnectionManager).

Definition ret {A} (a : A) : M A := fun this => Ret (Normal a, this).

Definition throw {A} (e : JsError) : M A := fun this => Ret (Thrown e, this).

Definition mbind {A B} (m : M A) (k : A -> M B) : M B :=
  fun this =>
    bind (m this) (fun r =>
      match fst r with
      | Normal a => k a (snd r)
      | Thrown e => Ret (Thrown e, snd r)
      end).

(** [try { m } catch (e) { handler e }] *)
Definition try_catch {A} (m : M A) (handler : JsError -> M A) : M A :=
  fun this =>
    bind (m this) (fun r =>
      match fst r with
      | Normal a => Ret (Normal a, snd r)
      | Thrown e => handler e (snd r)
      end).

(** A call that cannot fail. *)
Definition perform {X} (e : Event X) : M X :=
  fun this => Vis e (fun x => Ret (Normal x, this)).

(** [await] on the promise of a collaborator's call. *)
Definition await {X} (e : Event (JsError + X)) : M X :=
  fun this => Vis e (fun r =>
    match r with
    | inl err => Ret (Thrown err, this)
    | inr x => Ret (Normal x, this)
    end).

(** [await Promise.all([p, q])]: both calls are made, in the order of the
    array; the result is fulfilled when both are, and rejected with the
    reason of the first rejection otherwise. *)
Definition await_Promise_all {X Y} (p : Event (JsError + X)) (q : Event (JsError + Y))
  : M (X * Y) :=
  fun this => Vis p (fun rp => Vis q (fun rq =>
    match rp, rq with
    | inr x, inr y => Ret (Normal (x, y), this)
    | inl e, inr _ => Ret (Thrown e, this)
    | inr _, inl e => Ret (Thrown e, this)
    | inl e1, inl e2 =>
        Vis RejectedFirst (fun first => Ret (Thrown (if first : bool then e1 else e2), this))
    end)).

Definition get_this : M DynamoDBConnectionManager :=
  fun this => Ret (Normal this, this).

(** The manager with its [apiGatewayManager] field set to [client]. *)
Definition with_apiGatewayManager (client : option ApiGatewayManagementApiClient)
    (this : DynamoDBConnectionManager) : DynamoDBConnectionManager :=
  {| apiGatewayManager := client;
     connectionsTable := connectionsTable this;
     ttl := ttl this;
     debug := debug this |}.

(** [this.apiGatewayManager = client] *)
Definition set_apiGatewayManager (client : ApiGatewayManagementApiClient) : M unit :=
  fun this => Ret (Normal tt, with_apiGatewayManager (Some client) this).

Declare Scope js_scope.
Delimit Scope js_scope with js.
Notation "x <- m ;; k" := (mbind m (fun x => k))
  (at level 100, m at next level, right associativity) : js_scope.
Notation "m ;; k" := (mbind m (fun _ => k))
  (at level 100, right associativity) : js_scope.
Local Open Scope js_scope.

(** ** Running a program *)

Inductive Interaction : Type :=
| Interact {X : Type} (e : Event X) (r : X).

Record Run (S A : Type) : Type := {
  result : A;
  final : S;
  trace : list Interaction
}.

Arguments result {S A} r.
Arguments final {S A} r.
Arguments trace {S A} r.

(** The environment: how each event is answered, from a state of its own. *)
Definition Handler (S : Type) : Type := forall X, Event X -> S -> X * S.

Fixpoint run {S A : Type} (h : Handler S) (p : Prog A) (s : S) : Run S A :=
  match p with
  | Ret a => {| result := a; final := s; trace := [] |}
  | Vis e k =>
      let xs := h _ e s in
      let r := run h (k (fst xs)) (snd xs) in
      {| result := result r; final := final r; trace := Interact e (fst xs) :: trace r |}
  end.

(** ** Helpers *)

(** Modelled from the spec: [computeTTL] of [./helpers] is not among the
    sources.  The spec gives the absolute instant as now plus the configured
    seconds; the clock is read in the unit of [ttl]. *)
Definition computeTTL (seconds : Z) : M Z :=
  now <- perform DateNow ;;
  ret (now + seconds).

(** Modelled from the spec: [isTTLExpired] of [./helpers/isTTLExpired] is not
    among the sources.  By the spec a record is expired when its [ttl] is
    set and strictly in the past; a record without [ttl] never expires. *)
Definition isTTLExpired (ttl : option Z) : M bool :=
  match ttl with
  | None => ret false
  | Some t =>
      now <- perform DateNow ;;
      ret (t <? now)
  end.

(** [/^wss?:\/\//i.test(endpoint)] *)
Definition to_lower (c : ascii) : ascii :=
  let n := nat_of_ascii c in
  if ((65 <=? n) && (n <=? 90))%nat then ascii_of_nat (n + 32) else c.

Fixpoint lowercase (s : string) : string :=
  match s with
  | EmptyString => EmptyString
  | String c s' => String (to_lower c) (lowercase s')
  end.

Definition has_ws_scheme (endpoint : string) : bool :=
  let e := lowercase endpoint in
  String.prefix "ws://" e || String.prefix "wss://" e.

(** Evaluating an identifier that no scope declares. *)
Definition undeclared {A} (name : string) : M A :=
  throw (ReferenceError (name +:+ " is not defined")).

(** ** The methods of [DynamoDBConnectionManager] *)

(** [DynamoDBConnectionManagerOptions]: every field but the two
    collaborators is optional; [opt_ttl = Some None] is [ttl: false]. *)
Record DynamoDBConnectionManagerOptions := {
  opt_apiGatewayManager : option ApiGatewayManagementApiClient;
  opt_connectionsTable : option string;
  opt_ttl : option (option Z);
  opt_debug : option bool
}.

(** The constructor.  Of its assertions only the one on [ttl] can fail on
    options of this type. *)
Definition new_DynamoDBConnectionManager (options : DynamoDBConnectionManagerOptions)
  : JsError + DynamoDBConnectionManager :=
  let connectionsTable := default "Connections" (opt_connectionsTable options) in
  let ttl := default (Some DEFAULT_TTL) (opt_ttl options) in
  let debug := default false (opt_debug options) in
  if match ttl with
     | None => true
     | Some seconds => 0 <? seconds
     end
  then inr {| apiGatewayManager := opt_apiGatewayManager options;
              connectionsTable := connectionsTable;
              ttl := ttl;
              debug := debug |}
  else inl (AssertionError
              "Please provide ttl as a number greater than 0 or false to turn it off").

(** The [for] loop of [hydrateConnection] (lines 127-145), from index [i]
    on.  It returns the local [connection]: [Some] after [break], [None]
    when the loop runs out ([i > retryCount]). *)
Equations? hydrate_loop (connectionId : string) (retryCount timeout i : Z)
  : M (option DynamoDBConnection) by wf (Z.to_nat (retryCount + 1 - i)) lt :=
  hydrate_loop connectionId retryCount timeout i with Z_le_dec i retryCount := {
    | left _ =>
        this <- get_this ;;
        result <- await (DbSend (GetCommand (connectionsTable this) connectionId)) ;;
        match Item result with
        | Some connection => ret (Some connection)
        | None =>
            perform (SetTimeout timeout) ;;
            hydrate_loop connectionId retryCount timeout (i + 1)
        end
    | right _ => ret None }.
Proof. lia. Qed.

(** [new ConnectionNotFoundError(`Connection ${connectionId} not found`)] *)
Definition not_found (connectionId : string) : JsError :=
  ConnectionNotFoundError ("Connection " +:+ connectionId +:+ " not found").

(** [hydrateConnection] (lines 119-152). *)
Definition hydrateConnection (connectionId : string)
    (options : option HydrateConnectionOptions) : M DynamoDBConnection :=
  let retryCount := default 0 (options ≫= retryCount) in
  let timeout := default 50 (options ≫= timeout) in
  connection <- hydrate_loop connectionId retryCount timeout 0 ;;
  match connection with
  | None => throw (not_found connectionId)
  | Some connection =>
      expired <- isTTLExpired (conn_ttl connection) ;;
      if expired : bool then throw (not_found connectionId) else ret connection
  end.

(** [setConnectionData] (lines 154-170). *)
Definition setConnectionData (data : IConnectionData) (connection : DynamoDBConnection)
  : M unit :=
  this <- get_this ;;
  await (DbSend (UpdateCommand (connectionsTable this) (conn_id connection)
                   "set #data = :data"
                   [(":data", data)]
                   [("#data", "data")])) ;;
  ret tt.

(** [registerConnection] (lines 172-199).  The properties of [Item] are
    evaluated in the order they are written: [createdAt] reads the clock
    before [computeTTL] does. *)
Definition registerConnection (event : IConnectEvent) : M DynamoDBConnection :=
  let connection :=
    {| conn_id := ev_connectionId event;
       conn_data := {| endpoint := ev_endpoint event; context := ∅; isInitialized := false |};
       conn_createdAt := None;
       conn_ttl := None |} in
  this <- get_this ;;
  (if debug this
   then perform (ConsoleLog [LogString ("Connected " +:+ conn_id connection);
                             LogData (conn_data connection)])
   else ret tt) ;;
  createdAt <- perform DateNow ;;
  ttl_attribute <- match ttl this with
                   | None => ret None
                   | Some seconds => t <- computeTTL seconds ;; ret (Some t)
                   end ;;
  await (DbSend (PutCommand (connectionsTable this)
                   {| conn_id := conn_id connection;
                      conn_data := conn_data connection;
                      conn_createdAt := Some createdAt;
                      conn_ttl := ttl_attribute |})) ;;
  ret connection.

(** [unregisterConnection] (lines 223-235). *)
Definition unregisterConnection (connection : DynamoDBConnection) : M unit :=
  this <- get_this ;;
  await_Promise_all
    (DbSend (DeleteCommand (conn_id connection) (connectionsTable this)))
    (UnsubscribeAllByConnectionId (conn_id connection)) ;;
  ret tt.

(** [createApiGatewayManager] (lines 253-269).  The arguments of the second
    [console.info] are evaluated before the call; [endpoint1] is declared
    nowhere. *)
Definition createApiGatewayManager (endpoint : string) : M ApiGatewayManagementApiClient :=
  this <- get_this ;;
  match apiGatewayManager this with
  | Some client => ret client
  | None =>
      perform (ConsoleInfo [LogString "endpoint"; LogString endpoint]) ;;
      let endpoint := if has_ws_scheme endpoint then endpoint else "wss://" +:+ endpoint in
      endpoint1 <- undeclared "endpoint1" ;;
      perform (ConsoleInfo [LogString "endpoint1"; LogString endpoint1]) ;;
      let client := {| client_endpoint := endpoint |} in
      set_apiGatewayManager client ;;
      ret client
  end.

(** [sendToConnection] (lines 201-221). *)
Definition sendToConnection (connection : DynamoDBConnection) (payload : string) : M unit :=
  try_catch
    (client <- createApiGatewayManager (endpoint (conn_data connection)) ;;
     await (ApiSend client (PostToConnectionCommand (conn_id connection) payload)))
    (fun e =>
       if decide (statusCode e = Some 410)
       then unregisterConnection connection
       else throw e).

(** [closeConnection] (lines 237-246). *)
Definition closeConnection (connection : DynamoDBConnection) : M unit :=
  this <- get_this ;;
  (if debug this
   then perform (ConsoleLog [LogString "Disconnected "; LogString (conn_id connection)])
   else ret tt) ;;
  client <- createApiGatewayManager (endpoint (conn_data connection)) ;;
  await (ApiSend client (DeleteConnectionCommand (conn_id connection))).

(** ** Observing a trace *)

(** The command of a [this.db.send] interaction. *)
Definition db_command (it : Interaction) : option DbCommand :=
  match it with
  | Interact e _ =>
      match e with
      | DbSend c => Some c
      | _ => None
      end
  end.

Definition db_commands (tr : list Interaction) : list DbCommand :=
  omap db_command tr.

(** What a [GetCommand] was answered. *)
Definition read_response (it : Interaction) : option (JsError + DbOutput) :=
  match it with
  | Interact e r =>
      match e in Event X return X -> option (JsError + DbOutput) with
      | DbSend (GetCommand _ _) => fun r => Some r
      | _ => fun _ => None
      end r
  end.

(** A read that is fulfilled without an item (every other interaction
    passes). *)
Definition read_absent (it : Interaction) : Prop :=
  match read_response it with
  | Some r => r = inr {| Item := None |}
  | None => True
  end.

(** A read that is fulfilled with the item [c]. *)
Definition read_yields (c : DynamoDBConnection) (it : Interaction) : Prop :=
  read_response it = Some (inr {| Item := Some c |}).

Definition timeout_of (it : Interaction) : option Z :=
  match it with
  | Interact e _ =>
      match e with
      | SetTimeout ms => Some ms
      | _ => None
      end
  end.

(** The delays of a trace, in order. *)
Definition timeouts (tr : list Interaction) : list Z :=
  omap timeout_of tr.

Definition clock_reading (it : Interaction) : option Z :=
  match it with
  | Interact e r =>
      match e in Event X return X -> option Z with
      | DateNow => fun now => Some now
      | _ => fun _ => None
      end r
  end.

Definition clock_readings (tr : list Interaction) : list Z :=
  omap clock_reading tr.

Definition unsubscribe_of (it : Interaction) : option string :=
  match it with
  | Interact e _ =>
      match e with
      | UnsubscribeAllByConnectionId connectionId => Some connectionId
      | _ => None
      end
  end.

Definition unsubscribes (tr : list Interaction) : list string :=
  omap unsubscribe_of tr.

Definition api_command (it : Interaction) : option (ApiGatewayManagementApiClient * ApiCommand) :=
  match it with
  | Interact e _ =>
      match e with
      | ApiSend client c => Some (client, c)
      | _ => None
      end
  end.

Definition api_commands (tr : list Interaction)
  : list (ApiGatewayManagementApiClient * ApiCommand) :=
  omap api_command tr.

(** ** Reference collaborators

    A table store, a push transport and a subscription registry that keep
    the contracts the manager relies on: [get] answers the record or
    nothing, [put] is an unconditional upsert, [update] sets one attribute,
    [delete] and [unsubscribeAllByConnectionId] are idempotent, a command for
    a session that is not open is refused with the [GoneException] of
    [@aws-sdk/client-apigatewaymanagementapi], which has no [statusCode]
    property (the HTTP status is under [$metadata]).  Each collaborator can
    be made to fail. *)
Module Reference.

Record World := {
  tables : gmap (string * string) DynamoDBConnection;
  registry : gmap string (list string);
  sessions : gset string;
  clock_ms : Z;
  db_fault : DbCommand -> option JsError;
  api_fault : ApiCommand -> option JsError;
  unsubscribe_fault : string -> option JsError;
  rejected_first : bool
}.

Definition with_tables (t : gmap (string * string) DynamoDBConnection) (w : World) : World :=
  {| tables := t; registry := registry w; sessions := sessions w;
     clock_ms := clock_ms w; db_fault := db_fault w; api_fault := api_fault w;
     unsubscribe_fault := unsubscribe_fault w; rejected_first := rejected_first w |}.

Definition with_registry (r : gmap string (list string)) (w : World) : World :=
  {| tables := tables w; registry := r; sessions := sessions w;
     clock_ms := clock_ms w; db_fault := db_fault w; api_fault := api_fault w;
     unsubscribe_fault := unsubscribe_fault w; rejected_first := rejected_first w |}.

Definition with_sessions (s : gset string) (w : World) : World :=
  {| tables := tables w; registry := registry w; sessions := s;
     clock_ms := clock_ms w; db_fault := db_fault w; api_fault := api_fault w;
     unsubscribe_fault := unsubscribe_fault w; rejected_first := rejected_first w |}.

Definition with_clock_ms (c : Z) (w : World) : World :=
  {| tables := tables w; registry := registry w; sessions := sessions w;
     clock_ms := c; db_fault := db_fault w; api_fault := api_fault w;
     unsubscribe_fault := unsubscribe_fault w; rejected_first := rejected_first w |}.

Definition assoc {V} (k : string) (l : list (string * V)) : option V :=
  snd <$> List.find (fun p => String.eqb (fst p) k) l.

(** ["set <name> = <value>"] *)
Definition parse_set (expression : string) : option (string * string) :=
  if String.prefix "set " expression then
    let rest := String.substring 4 (String.length expression - 4) expression in
    match String.index 0 " = " rest with
    | Some n =>
        Some (String.substring 0 n rest,
              String.substring (n + 3) (String.length rest - (n + 3)) rest)
    | None => None
    end
  else None.

Definition validation_exception : JsError :=
  ServiceError "ValidationException" (Some 400).

(** A rejection that carries [statusCode] 410, as a client that exposes the
    HTTP status under that name reports a session that is gone. *)
Definition gone_exception : JsError :=
  ServiceError "GoneException" (Some 410).

(** The [GoneException] of the SDK client: no [statusCode] property. *)
Definition closed_session_exception : JsError :=
  ServiceError "GoneException" None.

(** An update sets the one attribute it names and keeps the others; on a
    key without an item it creates one. *)
Definition update_item (key : string) (expression : string)
    (values : list (string * IConnectionData)) (names : list (string * string))
    (old : option DynamoDBConnection) : JsError + DynamoDBConnection :=
  match parse_set expression with
  | Some (name, value) =>
      match assoc name names, assoc value values with
      | Some attribute, Some d =>
          if String.eqb attribute "data"
          then inr {| conn_id := key;
                      conn_data := d;
                      conn_createdAt := old ≫= conn_createdAt;
                      conn_ttl := old ≫= conn_ttl |}
          else inl validation_exception
      | _, _ => inl validation_exception
      end
  | None => inl validation_exception
  end.

Definition db_execute (c : DbCommand) (w : World) : (JsError + DbOutput) * World :=
  match c with
  | GetCommand table key => (inr {| Item := tables w !! (table, key) |}, w)
  | PutCommand table item =>
      (inr {| Item := None |}, with_tables (<[(table, conn_id item) := item]> (tables w)) w)
  | UpdateCommand table key expression values names =>
      match update_item key expression values names (tables w !! (table, key)) with
      | inl e => (inl e, w)
      | inr item => (inr {| Item := None |}, with_tables (<[(table, key) := item]> (tables w)) w)
      end
  | DeleteCommand key table =>
      (inr {| Item := None |}, with_tables (delete (table, key) (tables w)) w)
  end.

Definition api_execute (c : ApiCommand) (w : World) : (JsError + unit) * World :=
  match c with
  | PostToConnectionCommand connectionId _ =>
      if decide (connectionId ∈ sessions w)
      then (inr tt, w)
      else (inl closed_session_exception, w)
  | DeleteConnectionCommand connectionId =>
      if decide (connectionId ∈ sessions w)
      then (inr tt, with_sessions (sessions w ∖ {[connectionId]}) w)
      else (inl closed_session_exception, w)
  end.

Definition handle : Handler World :=
  fun X e =>
    match e in Event X return World -> X * World with
    | DbSend c => fun w =>
        match db_fault w c with
        | Some err => (inl err, w)
        | None => db_execute c w
        end
    | ApiSend _ c => fun w =>
        match api_fault w c with
        | Some err => (inl err, w)
        | None => api_execute c w
        end
    | UnsubscribeAllByConnectionId connectionId => fun w =>
        match unsubscribe_fault w connectionId with
        | Some err => (inl err, w)
        | None => (inr tt, with_registry (delete connectionId (registry w)) w)
        end
    | SetTimeout ms => fun w => (tt, with_clock_ms (clock_ms w + ms) w)
    | DateNow => fun w => (clock_ms w / 1000, w)
    | ConsoleLog _ => fun w => (tt, w)
    | ConsoleInfo _ => fun w => (tt, w)
    | RejectedFirst => fun w => (rejected_first w, w)
    end.

(** A world in which nothing fails. *)
Definition world (t : gmap (string * string) DynamoDBConnection)
    (r : gmap string (list string)) (s : gset string) (now_ms : Z) : World :=
  {| tables := t; registry := r; sessions := s; clock_ms := now_ms;
     db_fault := fun _ => None; api_fault := fun _ => None;
     unsubscribe_fault := fun _ => None; rejected_first := true |}.

End Reference.

(** ** The traces of the retry loop *)

(** [loop_trace table id t n tr c]: with [n] turns left, the loop leaves
    the trace [tr] and the local [connection] as [c].  A turn whose read
    finds nothing is followed by a delay of [t] and the remaining turns; a
    read that finds a record, or that is rejected, ends the loop. *)
Inductive loop_trace (table connectionId : string) (t : Z)
  : nat -> list Interaction -> Completion (option DynamoDBConnection) -> Prop :=
| loop_exhausted :
    loop_trace table connectionId t 0 [] (Normal None)
| loop_absent n tr c :
    loop_trace table connectionId t n tr c ->
    loop_trace table connectionId t (S n)
      (Interact (DbSend (GetCommand table connectionId)) (inr {| Item := None |})
       :: Interact (SetTimeout t) tt :: tr) c
| loop_found n connection :
    loop_trace table connectionId t (S n)
      [Interact (DbSend (GetCommand table connectionId)) (inr {| Item := Some connection |})]
      (Normal (Some connection))
| loop_rejected n e :
    loop_trace table connectionId t (S n)
      [Interact (DbSend (GetCommand table connectionId)) (inl e)]
      (Thrown e).

(** A read that is rejected with [e]. *)
Definition read_rejected (e : JsError) (it : Interaction) : Prop :=
  read_response it = Some (inl e).

(** [k] turns of the loop whose reads find nothing: each is a read and the
    delay after it. *)
Fixpoint absent_rounds (table connectionId : string) (t : Z) (k : nat) : list Interaction :=
  match k with
  | O => []
  | S k' =>
      Interact (DbSend (GetCommand table connectionId)) (inr {| Item := None |})
      :: Interact (SetTimeout t) tt
      :: absent_rounds table connectionId t k'
  end.

(** The state of the environment after [k] turns of the loop: each turn is
    a read of the id and the delay after it. *)
Fixpoint after_absent_rounds {S} (h : Handler S) (table connectionId : string) (t : Z)
    (k : nat) (s : S) : S :=
  match k with
  | O => s
  | S k' =>
      let s1 := snd (h _ (DbSend (GetCommand table connectionId)) s) in
      let s2 := snd (h _ (SetTimeout t) s1) in
      after_absent_rounds h table connectionId t k' s2
  end.

(** From [s], the environment answers the next [k] reads of the loop with
    no item. *)
Fixpoint absent_answers {S} (h : Handler S) (table connectionId : string) (t : Z)
    (k : nat) (s : S) : Prop :=
  match k with
  | O => True
  | S k' =>
      let x := h _ (DbSend (GetCommand table connectionId)) s in
      let s2 := snd (h _ (SetTimeout t) (snd x)) in
      fst x = inr {| Item := None |}
      /\ absent_answers h table connectionId t k' s2
  end.

(** A store in which the write of the connect event lands late: the first
    [misses] reads find nothing, the later ones find [record].  The clock
    stands at [now]; the state is the number of reads made. *)
Module LateWrite.

Definition handle (misses : nat) (record : DynamoDBConnection) (now : Z) : Handler nat :=
  fun X e =>
    match e in Event X return nat -> X * nat with
    | DbSend c => fun n =>
        match c with
        | GetCommand _ _ =>
            (inr {| Item := if (n <? misses)%nat then None else Some record |}, S n)
        | _ => (inr {| Item := None |}, n)
        end
    | ApiSend _ _ => fun n => (inr tt, n)
    | UnsubscribeAllByConnectionId _ => fun n => (inr tt, n)
    | SetTimeout _ => fun n => (tt, n)
    | DateNow => fun n => (now, n)
    | ConsoleLog _ => fun n => (tt, n)
    | ConsoleInfo _ => fun n => (tt, n)
    | RejectedFirst => fun n => (true, n)
    end.

End LateWrite.

(** How a run of [hydrateConnection] ends. *)
Inductive hydration_end (table connectionId : string)
  : list Interaction -> Completion DynamoDBConnection -> Prop :=
| end_rejected e :
    hydration_end table connectionId
      [Interact (DbSend (GetCommand table connectionId)) (inl e)]
      (Thrown e)
| end_without_ttl connection :
    conn_ttl connection = None ->
    hydration_end table connectionId
      [Interact (DbSend (GetCommand table connectionId)) (inr {| Item := Some connection |})]
      (Normal connection)
| end_with_ttl connection expiry now :
    conn_ttl connection = Some expiry ->
    hydration_end table connectionId
      [Interact (DbSend (GetCommand table connectionId)) (inr {| Item := Some connection |});
       Interact DateNow now]
      (if expiry <? now then Thrown (not_found connectionId) else Normal connection).

(** ** Sample inputs *)

Module Sample.

Definition manager : DynamoDBConnectionManager :=
  {| apiGatewayManager := None;
     connectionsTable := "Connections";
     ttl := Some DEFAULT_TTL;
     debug := false |}.

Definition client : ApiGatewayManagementApiClient :=
  {| client_endpoint := "wss://host/path" |}.

Definition manager_with_client : DynamoDBConnectionManager :=
  with_apiGatewayManager (Some client) manager.

Definition connect : IConnectEvent :=
  {| ev_connectionId := "c1";
     ev_endpoint := "host/path";
     ev_others := {[ "stage" := "dev" ]} |}.

Definition data : IConnectionData :=
  {| endpoint := "host/path"; context := ∅; isInitialized := false |}.

Definition initialized : IConnectionData :=
  {| endpoint := "host/path"; context := {[ "user" := "u1" ]}; isInitialized := true |}.

(** The record of ["c1"], registered at second [1000] with the default TTL. *)
Definition stored : DynamoDBConnection :=
  {| conn_id := "c1";
     conn_data := data;
     conn_createdAt := Some 1000;
     conn_ttl := Some (1000 + DEFAULT_TTL) |}.

Definition other : DynamoDBConnection :=
  {| conn_id := "c2";
     conn_data := data;
     conn_createdAt := Some 2000;
     conn_ttl := None |}.

(** Nothing stored, the clock at [0]. *)
Definition empty_world : Reference.World :=
  Reference.world ∅ ∅ ∅ 0.

(** Two records and their subscriptions, no open session, the clock at
    [now_ms]. *)
Definition world_at (now_ms : Z) : Reference.World :=
  Reference.world
    {[ ("Connections", "c1") := stored; ("Connections", "c2") := other ]}
    {[ "c1" := ["onMessage"]; "c2" := ["onMessage"] ]}
    ∅
    now_ms.

(** A rejection of the transport that is not "gone". *)
Definition throttled : JsError :=
  ServiceError "LimitExceededException" (Some 429).

(** [world_at 0] with a transport that refuses every command as throttled. *)
Definition throttled_world : Reference.World :=
  {| Reference.tables := Reference.tables (world_at 0);
     Reference.registry := Reference.registry (world_at 0);
     Reference.sessions := ∅;
     Reference.clock_ms := 0;
     Reference.db_fault := fun _ => None;
     Reference.api_fault := fun _ => Some throttled;
     Reference.unsubscribe_fault := fun _ => None;
     Reference.rejected_first := true |}.

(** [world_at 0] with a configured client that refuses every command with
    [statusCode] 410. *)
Definition stale_world : Reference.World :=
  {| Reference.tables := Reference.tables (world_at 0);
     Reference.registry := Reference.registry (world_at 0);
     Reference.sessions := ∅;
     Reference.clock_ms := 0;
     Reference.db_fault := fun _ => None;
     Reference.api_fault := fun _ => Some Reference.gone_exception;
     Reference.unsubscribe_fault := fun _ => None;
     Reference.rejected_first := true |}.

(** A rejection of the store. *)
Definition internal_error : JsError :=
  ServiceError "InternalServerError" (Some 500).

(** A rejection of the subscription manager. *)
Definition registry_error : JsError :=
  ServiceError "SubscriptionsUnavailable" None.

(** [world_at 0] with faults of the store and of the subscription manager. *)
Definition faulty_world (db : DbCommand -> option JsError)
    (unsubscribe : string -> option JsError) : Reference.World :=
  {| Reference.tables := Reference.tables (world_at 0);
     Reference.registry := Reference.registry (world_at 0);
     Reference.sessions := ∅;
     Reference.clock_ms := 0;
     Reference.db_fault := db;
     Reference.api_fault := fun _ => None;
     Reference.unsubscribe_fault := unsubscribe;
     Reference.rejected_first := true |}.

(** The store refuses every read. *)
Definition reads_refused (c : DbCommand) : option JsError :=
  match c with
  | GetCommand _ _ => Some internal_error
  | _ => None
  end.

(** The store refuses every delete. *)
Definition deletes_refused (c : DbCommand) : option JsError :=
  match c with
  | DeleteCommand _ _ => Some internal_error
  | _ => None
  end.

(** [world_at now_ms] with the session of ["c1"] open. *)
Definition connected_world (now_ms : Z) : Reference.World :=
  Reference.world (Reference.tables (world_at 0)) (Reference.registry (world_at 0))
    {[ "c1" ]} now_ms.

(** A second connect event for ["c1"], from another endpoint. *)
Definition reconnect : IConnectEvent :=
  {| ev_connectionId := "c1";
     ev_endpoint := "wss://other/path";
     ev_others := ∅ |}.

End Sample.

(** ** Tactics *)

Ltac answer h :=
  repeat match goal with
    | |- context [h ?X ?e ?s] =>
        let x := fresh "x" in
        let s' := fresh "s" in
        destruct (h X e s) as [x s']; cbn
    end.

(** ** The constructor *)

(** The sample manager is the one that the constructor builds from no
    options. *)
Example sample_manager_constructed :
  new_DynamoDBConnectionManager
    {| opt_apiGatewayManager := None; opt_connectionsTable := None;
       opt_ttl := None; opt_debug := None |}
  = inr Sample.manager.
Proof. reflexivity. Qed.

(** ** Runs of composed programs *)

Section Runs.
Context {S : Type} (h : Handler S).

Lemma run_bind {A B} (p : Prog A) (k : A -> Prog B) (s : S) :
  let r := run h p s in
  let r' := run h (k (result r)) (final r) in
  run h (bind p k) s =
    {| result := result r'; final := final r'; trace := trace r ++ trace r' |}.
Proof.
  revert s. induction p as [a | X e f IH]; intros s; cbn.
  - destruct (run h (k a) s); reflexivity.
  - rewrite IH. reflexivity.
Qed.

(** One turn of the loop of [hydrateConnection]. *)
Lemma run_hydrate_loop connectionId R t i this s :
  let get := DbSend (GetCommand (connectionsTable this) connectionId) in
  let x := h _ get s in
  let y := h _ (SetTimeout t) (snd x) in
  let r := run h (hydrate_loop connectionId R t (i + 1) this) (snd y) in
  run h (hydrate_loop connectionId R t i this) s =
    if Z_le_dec i R then
      match fst x with
      | inl e =>
          {| result := (Thrown e, this); final := snd x; trace := [Interact get (inl e)] |}
      | inr out =>
          match Item out with
          | Some c =>
              {| result := (Normal (Some c), this); final := snd x;
                 trace := [Interact get (inr out)] |}
          | None =>
              {| result := result r; final := final r;
                 trace := Interact get (inr out) :: Interact (SetTimeout t) (fst y) :: trace r |}
          end
      end
    else {| result := (Normal None, this); final := s; trace := [] |}.
Proof.
  cbn zeta. rewrite hydrate_loop_equation_1.
  destruct (Z_le_dec i R) as [Hle | Hgt]; [| reflexivity].
  cbn.
  destruct (h _ (DbSend (GetCommand (connectionsTable this) connectionId)) s) as [[e | out] s1];
    cbn; [reflexivity |].
  destruct (Item out); reflexivity.
Qed.

End Runs.

(** ** The retry loop *)

Lemma hydrate_loop_trace {S} (h : Handler S) connectionId R t this :
  forall (n : nat) (i : Z) (s : S),
    n = Z.to_nat (R + 1 - i) ->
    let r := run h (hydrate_loop connectionId R t i this) s in
    loop_trace (connectionsTable this) connectionId t n (trace r) (fst (result r))
    /\ snd (result r) = this.
Proof.
  induction n as [| n IH]; intros i s Hn; cbn zeta; rewrite run_hydrate_loop.
  - destruct (Z_le_dec i R) as [Hle | Hgt]; [lia |].
    split; [constructor | reflexivity].
  - destruct (Z_le_dec i R) as [Hle | Hgt]; [| lia].
    destruct (h _ (DbSend (GetCommand (connectionsTable this) connectionId)) s)
      as [[e | [[c |]]] s1]; cbn.
    + split; [constructor | reflexivity].
    + split; [constructor | reflexivity].
    + destruct (h _ (SetTimeout t) s1) as [[] s2]; cbn.
      destruct (IH (i + 1) s2 ltac:(lia)) as [Htr Hthis].
      split; [constructor; exact Htr | exact Hthis].
Qed.

(** When every read finds nothing, all [n] turns are taken: [n] reads,
    each followed by a delay of [t], and [connection] stays undefined. *)
Lemma loop_trace_all_absent table connectionId t n tr c :
  loop_trace table connectionId t n tr c ->
  Forall read_absent tr ->
  c = Normal None
  /\ db_commands tr = repeat (GetCommand table connectionId) n
  /\ timeouts tr = repeat t n
  /\ clock_readings tr = [].
Proof.
  induction 1 as [| n tr c _ IH | n connection | n e]; intros Habs.
  - repeat split.
  - inversion Habs as [| ? ? _ Htl]; subst.
    inversion Htl as [| ? ? _ Htr]; subst.
    destruct (IH Htr) as (-> & Hreads & Htimeouts & Hclock).
    unfold db_commands, timeouts, clock_readings in *. cbn.
    rewrite Hreads, Htimeouts. repeat split. exact Hclock.
  - inversion Habs as [| ? ? Hhd _]; subst. discriminate Hhd.
  - inversion Habs as [| ? ? Hhd _]; subst. discriminate Hhd.
Qed.

(** When some read finds a record, it is the last interaction of the
    loop, every read before it found nothing, and [connection] is that
    record. *)
Lemma loop_trace_found table connectionId t n tr c connection :
  loop_trace table connectionId t n tr c ->
  Exists (read_yields connection) tr ->
  c = Normal (Some connection)
  /\ exists before,
       tr = before ++ [Interact (DbSend (GetCommand table connectionId))
                         (inr {| Item := Some connection |})]
       /\ Forall read_absent before
       /\ clock_readings before = [].
Proof.
  induction 1 as [| n tr c _ IH | n connection' | n e]; intros Hex.
  - inversion Hex.
  - inversion Hex as [? ? Hhd | ? ? Htl]; subst; [discriminate Hhd |].
    inversion Htl as [? ? Hhd | ? ? Htr]; subst; [discriminate Hhd |].
    destruct (IH Htr) as (-> & before & -> & Habs & Hclock).
    split; [reflexivity |].
    eexists (_ :: _ :: before). split; [reflexivity |].
    split; [| exact Hclock].
    repeat constructor. exact Habs.
  - inversion Hex as [? ? Hhd | ? ? Htl]; subst; [| inversion Htl].
    unfold read_yields in Hhd. cbn in Hhd.
    injection Hhd as ->.
    split; [reflexivity |].
    exists []. repeat split; constructor.
  - inversion Hex as [? ? Hhd | ? ? Htl]; subst; [discriminate Hhd | inversion Htl].
Qed.

(** [hydrateConnection] is the loop followed by the check of
    [!connection || isTTLExpired(connection.ttl)]. *)
Lemma run_hydrateConnection {S} (h : Handler S) connectionId options this s :
  let l := run h (hydrate_loop connectionId (default 0 (options ≫= retryCount))
                    (default 50 (options ≫= timeout)) 0 this) s in
  let now := h _ DateNow (final l) in
  run h (hydrateConnection connectionId options this) s =
    match fst (result l) with
    | Normal (Some connection) =>
        match conn_ttl connection with
        | Some expiry =>
            {| result := (if expiry <? fst now
                          then Thrown (not_found connectionId)
                          else Normal connection, snd (result l));
               final := snd now;
               trace := trace l ++ [Interact DateNow (fst now)] |}
        | None =>
            {| result := (Normal connection, snd (result l));
               final := final l;
               trace := trace l ++ [] |}
        end
    | Normal None =>
        {| result := (Thrown (not_found connectionId), snd (result l));
           final := final l;
           trace := trace l ++ [] |}
    | Thrown e =>
        {| result := (Thrown e, snd (result l)); final := final l; trace := trace l ++ [] |}
    end.
Proof.
  cbn zeta. unfold hydrateConnection, mbind at 1. rewrite run_bind. cbn zeta.
  destruct (run h (hydrate_loop _ _ _ 0 this) s) as [[[[c |] | e] this'] s1 tr]; cbn;
    try reflexivity.
  destruct (conn_ttl c) as [expiry |]; cbn; [| reflexivity].
  destruct (expiry <? _); reflexivity.
Qed.

(** ** hydrateConnection *)

(** When every read finds nothing: the commands, the delays and the
    completion of [hydrateConnection].  There is a delay after every read,
    the last one included. *)
Lemma hydrateConnection_all_absent {S} (h : Handler S) (s : S)
    (this : DynamoDBConnectionManager) (connectionId : string)
    (options : option HydrateConnectionOptions) :
  let R := default 0 (options ≫= retryCount) in
  let t := default 50 (options ≫= timeout) in
  let r := run h (hydrateConnection connectionId options this) s in
  0 <= R ->
  Forall read_absent (trace r) ->
  db_commands (trace r)
    = repeat (GetCommand (connectionsTable this) connectionId) (Z.to_nat (R + 1))
  /\ timeouts (trace r) = repeat t (Z.to_nat (R + 1))
  /\ fst (result r) = Thrown (not_found connectionId).
Proof.
  cbn zeta. intros HR. rewrite run_hydrateConnection. cbn zeta.
  set (R := default 0 (options ≫= retryCount)) in *.
  set (t := default 50 (options ≫= timeout)).
  destruct (hydrate_loop_trace h connectionId R t this (Z.to_nat (R + 1)) 0 s ltac:(f_equal; lia))
    as [Hloop _].
  set (l := run h (hydrate_loop connectionId R t 0 this) s) in *.
  intros Habs.
  assert (Hl : Forall read_absent (trace l)).
  { destruct (fst (result l)) as [[c |] | e]; [destruct (conn_ttl c) |..];
      cbn in Habs; apply Forall_app in Habs; apply Habs. }
  destruct (loop_trace_all_absent _ _ _ _ _ _ Hloop Hl) as (Hc & Hdb & Htimeouts & _).
  rewrite Hc. cbn [trace result fst]. rewrite app_nil_r, Hdb, Htimeouts.
  repeat split.
Qed.

(** C1.  For every retry count [R >= 0]: when every read of the run finds
    nothing, [hydrateConnection] sends exactly [R + 1] [GetCommand]s for the
    connection id (and no other command) and then fails with
    [ConnectionNotFoundError]. *)
Theorem hydrateConnection_exhausts_retries {S} (h : Handler S) (s : S)
    (this : DynamoDBConnectionManager) (connectionId : string)
    (options : option HydrateConnectionOptions) :
  let R := default 0 (options ≫= retryCount) in
  let r := run h (hydrateConnection connectionId options this) s in
  0 <= R ->
  Forall read_absent (trace r) ->
  db_commands (trace r)
    = repeat (GetCommand (connectionsTable this) connectionId) (Z.to_nat (R + 1))
  /\ Z.of_nat (length (db_commands (trace r))) = R + 1
  /\ fst (result r)
     = Thrown (ConnectionNotFoundError ("Connection " +:+ connectionId +:+ " not found")).
Proof.
  cbn zeta. intros HR Habs.
  destruct (hydrateConnection_all_absent h s this connectionId options HR Habs)
    as (Hdb & _ & Hresult).
  rewrite Hdb, repeat_length. repeat split; [lia | exact Hresult].
Qed.

(** C1 at work: two retries against an empty table. *)
Lemma hydrateConnection_exhausts_retries_witness :
  let options := Some {| retryCount := Some 2; timeout := Some 50 |} in
  let r := run Reference.handle (hydrateConnection "c1" options Sample.manager)
             Sample.empty_world in
  (0 <= 2 /\ Forall read_absent (trace r))
  /\ db_commands (trace r) = repeat (GetCommand "Connections" "c1") 3
  /\ Z.of_nat (length (db_commands (trace r))) = 2 + 1
  /\ fst (result r) = Thrown (ConnectionNotFoundError "Connection c1 not found").
Proof.
  cbn zeta.
  assert (HR : 0 <= 2) by lia.
  assert (Habs : Forall read_absent
                   (trace (run Reference.handle
                             (hydrateConnection "c1"
                                (Some {| retryCount := Some 2; timeout := Some 50 |})
                                Sample.manager)
                             Sample.empty_world)))
    by (vm_compute; repeat constructor).
  split; [split; assumption |].
  exact (hydrateConnection_exhausts_retries Reference.handle Sample.empty_world
           Sample.manager "c1" (Some {| retryCount := Some 2; timeout := Some 50 |})
           HR Habs).
Defined.

(** C2, at [retryCount = 0] and [timeout = 50] against an empty table: the
    only read is followed by a delay of 50 ms before the call fails, although
    [retryCount * timeout] is 0. *)
Theorem hydrateConnection_delays_after_last_read :
  let options := Some {| retryCount := Some 0; timeout := Some 50 |} in
  let r := run Reference.handle (hydrateConnection "c1" options Sample.manager)
             Sample.empty_world in
  fst (result r) = Thrown (ConnectionNotFoundError "Connection c1 not found")
  /\ trace r = [Interact (DbSend (GetCommand "Connections" "c1")) (inr {| Item := None |});
                Interact (SetTimeout 50) tt]
  /\ timeouts (trace r) = [50]
  /\ Reference.clock_ms (final r) = Reference.clock_ms Sample.empty_world + 50.
Proof.
  vm_compute. repeat split.
Qed.

(** What a trace of absent rounds shows. *)
Lemma absent_rounds_observed table connectionId t k :
  db_commands (absent_rounds table connectionId t k)
    = repeat (GetCommand table connectionId) k
  /\ timeouts (absent_rounds table connectionId t k) = repeat t k
  /\ clock_readings (absent_rounds table connectionId t k) = []
  /\ api_commands (absent_rounds table connectionId t k) = []
  /\ unsubscribes (absent_rounds table connectionId t k) = []
  /\ Forall read_absent (absent_rounds table connectionId t k).
Proof.
  induction k as [| k (Hdb & Ht & Hc & Ha & Hu & Habs)].
  - repeat split. constructor.
  - unfold db_commands, timeouts, clock_readings, api_commands, unsubscribes in *.
    cbn. rewrite Hdb, Ht.
    split; [reflexivity |]. split; [reflexivity |].
    split; [exact Hc |]. split; [exact Ha |]. split; [exact Hu |].
    constructor; [reflexivity |]. constructor; [exact I | exact Habs].
Qed.

(** The loop when the read after [k] absent turns finds a record. *)
Lemma run_hydrate_loop_found {S} (h : Handler S) connectionId R t this connection :
  forall (k : nat) (i : Z) (s s1 : S),
    i + Z.of_nat k <= R ->
    absent_answers h (connectionsTable this) connectionId t k s ->
    h _ (DbSend (GetCommand (connectionsTable this) connectionId))
      (after_absent_rounds h (connectionsTable this) connectionId t k s)
      = (inr {| Item := Some connection |}, s1) ->
    run h (hydrate_loop connectionId R t i this) s
      = {| result := (Normal (Some connection), this);
           final := s1;
           trace := absent_rounds (connectionsTable this) connectionId t k
                    ++ [Interact (DbSend (GetCommand (connectionsTable this) connectionId))
                          (inr {| Item := Some connection |})] |}.
Proof.
  induction k as [| k IH]; intros i s s1 Hi Habs Hread; rewrite run_hydrate_loop; cbn zeta;
    (destruct (Z_le_dec i R) as [_ | Hgt]; [| lia]).
  - cbn in Hread. rewrite Hread. reflexivity.
  - cbn in Habs, Hread. destruct Habs as [Hnone Habs].
    destruct (h _ (DbSend (GetCommand (connectionsTable this) connectionId)) s)
      as [x s0]. cbn in *. subst x. cbn.
    destruct (h _ (SetTimeout t) s0) as [[] s0']. cbn in *.
    rewrite (IH (i + 1) s0' s1 ltac:(lia) Habs Hread). reflexivity.
Qed.

(** C3.  Whatever the collaborators are: when, after [k <= retryCount] reads
    that find nothing, the read of the next attempt finds a record whose
    [ttl] is set and strictly before what the clock then answers,
    [hydrateConnection] fails with [ConnectionNotFoundError]; the run is
    those [k] rounds, that read and the clock reading of the expiry check,
    and nothing more: no attempt follows the one that found the record. *)
Theorem hydrateConnection_expired_record {S} (h : Handler S) (s s1 s2 : S)
    (this : DynamoDBConnectionManager) (connectionId : string)
    (options : option HydrateConnectionOptions)
    (connection : DynamoDBConnection) (expiry now : Z) (k : nat) :
  let R := default 0 (options ≫= retryCount) in
  let t := default 50 (options ≫= timeout) in
  let get := GetCommand (connectionsTable this) connectionId in
  let r := run h (hydrateConnection connectionId options this) s in
  Z.of_nat k <= R ->
  absent_answers h (connectionsTable this) connectionId t k s ->
  h _ (DbSend get) (after_absent_rounds h (connectionsTable this) connectionId t k s)
    = (inr {| Item := Some connection |}, s1) ->
  h _ DateNow s1 = (now, s2) ->
  conn_ttl connection = Some expiry ->
  expiry < now ->
  result r
    = (Thrown (ConnectionNotFoundError ("Connection " +:+ connectionId +:+ " not found")),
       this)
  /\ final r = s2
  /\ trace r = absent_rounds (connectionsTable this) connectionId t k
               ++ [Interact (DbSend get) (inr {| Item := Some connection |});
                   Interact DateNow now]
  /\ db_commands (trace r) = repeat get (k + 1).
Proof.
  cbn zeta. intros Hk Habs Hread Hclock Httl Hlt.
  rewrite run_hydrateConnection. cbn zeta.
  assert (Hbound : 0 + Z.of_nat k <= default 0 (options ≫= retryCount)) by lia.
  rewrite (run_hydrate_loop_found h connectionId _ _ this connection k 0 s s1
             Hbound Habs Hread).
  cbn [result final trace fst snd]. rewrite Httl, Hclock. cbn [fst snd].
  destruct (Z.ltb_spec expiry now) as [_ | Hge]; [| lia].
  rewrite <- app_assoc. cbn [app].
  repeat split.
  unfold db_commands. cbn [trace]. rewrite omap_app.
  destruct (absent_rounds_observed (connectionsTable this) connectionId
              (default 50 (options ≫= timeout)) k) as (Hdb & _).
  unfold db_commands in Hdb. rewrite Hdb. cbn.
  rewrite repeat_app. reflexivity.
Qed.

(** C3 at work: five retries are allowed, the record of ["c1"] (expired
    since second 8200) is found by the third read at second 8300; the call
    fails there and the remaining three attempts are not made. *)
Lemma hydrateConnection_expired_record_witness :
  let h := LateWrite.handle 2 Sample.stored 8300 in
  let options := Some {| retryCount := Some 5; timeout := Some 50 |} in
  let get := GetCommand "Connections" "c1" in
  let r := run h (hydrateConnection "c1" options Sample.manager) 0%nat in
  (Z.of_nat 2 <= 5
   /\ absent_answers h "Connections" "c1" 50 2 0%nat
   /\ h _ (DbSend get) (after_absent_rounds h "Connections" "c1" 50 2 0%nat)
      = (inr {| Item := Some Sample.stored |}, 3%nat)
   /\ h _ DateNow 3%nat = (8300, 3%nat)
   /\ conn_ttl Sample.stored = Some 8200
   /\ 8200 < 8300)
  /\ result r = (Thrown (ConnectionNotFoundError "Connection c1 not found"), Sample.manager)
  /\ final r = 3%nat
  /\ trace r = absent_rounds "Connections" "c1" 50 2
               ++ [Interact (DbSend get) (inr {| Item := Some Sample.stored |});
                   Interact DateNow 8300]
  /\ db_commands (trace r) = repeat get (2 + 1).
Proof.
  cbn zeta.
  assert (Hk : Z.of_nat 2 <= 5) by (simpl; lia).
  assert (Habs : absent_answers (LateWrite.handle 2 Sample.stored 8300)
                   "Connections" "c1" 50 2 0%nat)
    by (simpl; repeat split).
  assert (Hread : LateWrite.handle 2 Sample.stored 8300 _
                    (DbSend (GetCommand "Connections" "c1"))
                    (after_absent_rounds (LateWrite.handle 2 Sample.stored 8300)
                       "Connections" "c1" 50 2 0%nat)
                  = (inr {| Item := Some Sample.stored |}, 3%nat))
    by reflexivity.
  assert (Hclock : LateWrite.handle 2 Sample.stored 8300 _ DateNow 3%nat = (8300, 3%nat))
    by reflexivity.
  assert (Httl : conn_ttl Sample.stored = Some 8200) by reflexivity.
  assert (Hlt : 8200 < 8300) by lia.
  split; [repeat split; assumption |].
  exact (hydrateConnection_expired_record (LateWrite.handle 2 Sample.stored 8300)
           0%nat 3%nat 3%nat Sample.manager "c1"
           (Some {| retryCount := Some 5; timeout := Some 50 |})
           Sample.stored 8200 8300 2 Hk Habs Hread Hclock Httl Hlt).
Defined.

(** ** registerConnection *)

(** C4.  The only command that [registerConnection] sends to the store is
    one [PutCommand] (no read comes before it), and its item has the
    event's id, [data = {endpoint, context: {}, isInitialized: false}] and
    [createdAt]; its [ttl] is the clock reading of [computeTTL] plus the
    configured seconds when a TTL is configured, and is missing when TTL is
    off.  In the reference store the item then sits under the id, whatever
    the table held before. *)
Theorem registerConnection_puts_fresh_record (this : DynamoDBConnectionManager)
    (event : IConnectEvent) :
  let fresh := {| endpoint := ev_endpoint event; context := ∅; isInitialized := false |} in
  (forall S (h : Handler S) (s : S),
     let r := run h (registerConnection event this) s in
     exists (created : Z) (expiry : option Z),
       db_commands (trace r)
         = [PutCommand (connectionsTable this)
              {| conn_id := ev_connectionId event;
                 conn_data := fresh;
                 conn_createdAt := Some created;
                 conn_ttl := expiry |}]
       /\ match ttl this with
          | Some seconds =>
              exists now, clock_readings (trace r) = [created; now]
                          /\ expiry = Some (now + seconds)
          | None => clock_readings (trace r) = [created] /\ expiry = None
          end)
  /\ (forall tables registry sessions now_ms,
        let w := Reference.world tables registry sessions now_ms in
        let r := run Reference.handle (registerConnection event this) w in
        Reference.tables (final r)
          = <[(connectionsTable this, ev_connectionId event) :=
                {| conn_id := ev_connectionId event;
                   conn_data := fresh;
                   conn_createdAt := Some (now_ms / 1000);
                   conn_ttl := (fun seconds => now_ms / 1000 + seconds) <$> ttl this |}]>
              tables).
Proof.
  cbn zeta. split.
  - intros S h s. unfold registerConnection.
    destruct this as [client table [seconds |] []]; cbn; answer h;
      repeat match goal with x : JsError + DbOutput |- _ => destruct x; cbn end;
      eauto 6.
  - intros tables registry sessions now_ms. unfold registerConnection.
    destruct this as [client table [seconds |] []]; reflexivity.
Qed.

(** C5, as the code has it.  When the write is fulfilled,
    [registerConnection] returns the object it built before the write: it
    has the [id] and the [data] of the item written, and neither
    [createdAt] nor [ttl], which the written item has ([createdAt] always,
    [ttl] when a TTL is configured).  When the write is rejected, the
    rejection is thrown. *)
Theorem registerConnection_returns_id_and_data {S} (h : Handler S) (s : S)
    (this : DynamoDBConnectionManager) (event : IConnectEvent) :
  let r := run h (registerConnection event this) s in
  exists (written : DynamoDBConnection) (response : JsError + DbOutput),
    last (trace r)
      = Some (Interact (DbSend (PutCommand (connectionsTable this) written)) response)
    /\ fst (result r)
       = match response with
         | inl e => Thrown e
         | inr _ => Normal {| conn_id := conn_id written;
                              conn_data := conn_data written;
                              conn_createdAt := None;
                              conn_ttl := None |}
         end
    /\ is_Some (conn_createdAt written)
    /\ (is_Some (conn_ttl written) <-> is_Some (ttl this)).
Proof.
  cbn zeta. unfold registerConnection.
  destruct this as [client table [seconds |] []]; cbn; answer h;
    repeat match goal with x : JsError + DbOutput |- _ => destruct x; cbn end;
    (do 2 eexists; split; [reflexivity |]; split; [reflexivity |]; cbn;
     split; [eauto | split; intros [? ?]; eauto; discriminate]).
Qed.

(** C5 as stated fails: with the default TTL, at second 1000, the record
    written has [createdAt] and [ttl], and the value returned has neither. *)
Lemma registerConnection_returns_written_record_counterexample :
  let r := run Reference.handle (registerConnection Sample.connect Sample.manager)
             (Reference.world ∅ ∅ ∅ 1000000) in
  exists returned written,
    fst (result r) = Normal returned
    /\ db_commands (trace r) = [PutCommand "Connections" written]
    /\ Reference.tables (final r) !! ("Connections", "c1") = Some written
    /\ returned <> written
    /\ conn_createdAt returned = None
    /\ conn_createdAt written = Some 1000
    /\ conn_ttl returned = None
    /\ conn_ttl written = Some 8200.
Proof.
  cbn zeta.
  exists {| conn_id := "c1"; conn_data := Sample.data;
            conn_createdAt := None; conn_ttl := None |}.
  exists {| conn_id := "c1"; conn_data := Sample.data;
            conn_createdAt := Some 1000; conn_ttl := Some 8200 |}.
  repeat split; try (vm_compute; reflexivity).
  discriminate.
Qed.

(** ** setConnectionData *)

(** C6.  In the reference store, for a record stored under the
    connection's id: [setConnectionData] sends one [UpdateCommand] and
    nothing else; afterwards the record has the new [data] and its old
    [createdAt] and [ttl], every other record is as before, and so are the
    subscriptions.  Whatever the collaborators answer, that command is the
    only one sent. *)
Theorem setConnectionData_replaces_data_only (w : Reference.World)
    (this : DynamoDBConnectionManager) (data : IConnectionData)
    (connection stored : DynamoDBConnection) :
  let key := (connectionsTable this, conn_id connection) in
  let update := UpdateCommand (connectionsTable this) (conn_id connection)
                  "set #data = :data" [(":data", data)] [("#data", "data")] in
  let r := run Reference.handle (setConnectionData data connection this) w in
  Reference.tables w !! key = Some stored ->
  conn_id stored = conn_id connection ->
  Reference.db_fault w update = None ->
  fst (result r) = Normal tt
  /\ trace r = [Interact (DbSend update) (inr {| Item := None |})]
  /\ Reference.tables (final r) !! key
     = Some {| conn_id := conn_id stored;
               conn_data := data;
               conn_createdAt := conn_createdAt stored;
               conn_ttl := conn_ttl stored |}
  /\ (forall other, other <> key ->
        Reference.tables (final r) !! other = Reference.tables w !! other)
  /\ Reference.registry (final r) = Reference.registry w
  /\ (forall S (h : Handler S) (s : S),
        let r' := run h (setConnectionData data connection this) s in
        db_commands (trace r') = [update]
        /\ api_commands (trace r') = []
        /\ unsubscribes (trace r') = []).
Proof.
  cbn zeta. intros Hstored Hid Hfault.
  unfold setConnectionData. cbn. rewrite Hfault. cbn.
  rewrite Hstored, Hid. cbn.
  repeat split.
  - apply lookup_insert_eq.
  - intros other Hother. apply lookup_insert_ne. congruence.
  - destruct (h _ _ s) as [[e | o] s1]; reflexivity.
  - destruct (h _ _ s) as [[e | o] s1]; reflexivity.
  - destruct (h _ _ s) as [[e | o] s1]; reflexivity.
Qed.

(** C6 at work: the handshake stores the initialized data of ["c1"]. *)
Lemma setConnectionData_replaces_data_only_witness :
  let key := ("Connections", "c1") in
  let update := UpdateCommand "Connections" "c1" "set #data = :data"
                  [(":data", Sample.initialized)] [("#data", "data")] in
  let w := Sample.world_at 0 in
  let r := run Reference.handle
             (setConnectionData Sample.initialized Sample.stored Sample.manager) w in
  (Reference.tables w !! key = Some Sample.stored
   /\ conn_id Sample.stored = "c1"
   /\ Reference.db_fault w update = None)
  /\ fst (result r) = Normal tt
  /\ trace r = [Interact (DbSend update) (inr {| Item := None |})]
  /\ Reference.tables (final r) !! key
     = Some {| conn_id := "c1";
               conn_data := Sample.initialized;
               conn_createdAt := Some 1000;
               conn_ttl := Some 8200 |}
  /\ (forall other, other <> key ->
        Reference.tables (final r) !! other = Reference.tables w !! other)
  /\ Reference.registry (final r) = Reference.registry w
  /\ (forall S (h : Handler S) (s : S),
        let r' := run h (setConnectionData Sample.initialized Sample.stored Sample.manager) s in
        db_commands (trace r') = [update]
        /\ api_commands (trace r') = []
        /\ unsubscribes (trace r') = []).
Proof.
  cbn zeta.
  assert (Hstored : Reference.tables (Sample.world_at 0) !! ("Connections", "c1")
                    = Some Sample.stored) by (vm_compute; reflexivity).
  assert (Hid : conn_id Sample.stored = conn_id Sample.stored) by reflexivity.
  assert (Hfault : Reference.db_fault (Sample.world_at 0)
                     (UpdateCommand "Connections" "c1" "set #data = :data"
                        [(":data", Sample.initialized)] [("#data", "data")])
                   = None) by reflexivity.
  split; [repeat split; assumption |].
  exact (setConnectionData_replaces_data_only (Sample.world_at 0) Sample.manager
           Sample.initialized Sample.stored Sample.stored Hstored Hid Hfault).
Defined.

(** ** unregisterConnection *)

(** C9.  [unregisterConnection] always sends both the [DeleteCommand] for
    the record's id and [unsubscribeAllByConnectionId] for that id, whatever
    either answers, and sends nothing after them.  It completes normally
    exactly when both are fulfilled; when one is rejected it throws that
    rejection, and when both are, the one that came first. *)
Theorem unregisterConnection_joins_both {S} (h : Handler S) (s : S)
    (this : DynamoDBConnectionManager) (connection : DynamoDBConnection) :
  let delete := DbSend (DeleteCommand (conn_id connection) (connectionsTable this)) in
  let unsubscribe := UnsubscribeAllByConnectionId (conn_id connection) in
  let d := h _ delete s in
  let u := h _ unsubscribe (snd d) in
  let first := h _ RejectedFirst (snd u) in
  let r := run h (unregisterConnection connection this) s in
  firstn 2 (trace r) = [Interact delete (fst d); Interact unsubscribe (fst u)]
  /\ db_commands (trace r) = [DeleteCommand (conn_id connection) (connectionsTable this)]
  /\ unsubscribes (trace r) = [conn_id connection]
  /\ api_commands (trace r) = []
  /\ fst (result r)
     = match fst d, fst u with
       | inr _, inr _ => Normal tt
       | inl e, inr _ => Thrown e
       | inr _, inl e => Thrown e
       | inl e1, inl e2 => Thrown (if fst first then e1 else e2)
       end.
Proof.
  cbn zeta. unfold unregisterConnection. cbn.
  destruct (h _ (DbSend (DeleteCommand (conn_id connection) (connectionsTable this))) s)
    as [[e1 | o1] s1]; cbn;
    destruct (h _ (UnsubscribeAllByConnectionId (conn_id connection)) s1)
      as [[e2 | o2] s2]; cbn;
    repeat split.
Qed.

(** ** sendToConnection *)

(** C7.  With a client configured, when the post is rejected with [e]: if
    [e.statusCode] is 410, [sendToConnection] goes on with
    [unregisterConnection] (one [DeleteCommand] for the record, one
    [unsubscribeAllByConnectionId]) and completes as that does, so [e] is
    not thrown; otherwise it throws [e] and sends nothing more. *)
Theorem sendToConnection_gone_or_rethrow {S} (h : Handler S) (s s1 : S)
    (this : DynamoDBConnectionManager) (client : ApiGatewayManagementApiClient)
    (connection : DynamoDBConnection) (payload : string) (e : JsError) :
  let post := ApiSend client (PostToConnectionCommand (conn_id connection) payload) in
  let delete := DbSend (DeleteCommand (conn_id connection) (connectionsTable this)) in
  let unsubscribe := UnsubscribeAllByConnectionId (conn_id connection) in
  let d := h _ delete s1 in
  let u := h _ unsubscribe (snd d) in
  let first := h _ RejectedFirst (snd u) in
  let r := run h (sendToConnection connection payload this) s in
  apiGatewayManager this = Some client ->
  h _ post s = (inl e, s1) ->
  if decide (statusCode e = Some 410) then
    trace r = Interact post (inl e)
              :: trace (run h (unregisterConnection connection this) s1)
    /\ db_commands (trace r) = [DeleteCommand (conn_id connection) (connectionsTable this)]
    /\ unsubscribes (trace r) = [conn_id connection]
    /\ fst (result r)
       = match fst d, fst u with
         | inr _, inr _ => Normal tt
         | inl e1, inr _ => Thrown e1
         | inr _, inl e2 => Thrown e2
         | inl e1, inl e2 => Thrown (if fst first then e1 else e2)
         end
  else
    result r = (Thrown e, this)
    /\ trace r = [Interact post (inl e)]
    /\ final r = s1.
Proof.
  cbn zeta. intros Hclient Hpost.
  destruct this as [client' table seconds dbg]. cbn in Hclient. subst client'.
  unfold sendToConnection, try_catch, createApiGatewayManager, unregisterConnection.
  cbn. rewrite Hpost. cbn.
  destruct (decide (statusCode e = Some 410)) as [Hgone | Hother]; cbn.
  - destruct (h _ (DbSend (DeleteCommand (conn_id connection) table)) s1)
      as [[e1 | o1] s2]; cbn;
      destruct (h _ (UnsubscribeAllByConnectionId (conn_id connection)) s2)
        as [[e2 | o2] s3]; cbn;
      repeat split.
  - repeat split.
Qed.

(** C7 at work: the client refuses the post with [statusCode] 410; the
    record and the subscriptions of ["c1"] are removed and the call
    completes normally. *)
Lemma sendToConnection_gone_or_rethrow_witness :
  let post := ApiSend Sample.client (PostToConnectionCommand "c1" "hello") in
  let w := Sample.stale_world in
  let r := run Reference.handle
             (sendToConnection Sample.stored "hello" Sample.manager_with_client) w in
  (apiGatewayManager Sample.manager_with_client = Some Sample.client
   /\ Reference.handle _ post w = (inl Reference.gone_exception, w))
  /\ trace r = Interact post (inl Reference.gone_exception)
               :: trace (run Reference.handle
                           (unregisterConnection Sample.stored Sample.manager_with_client) w)
  /\ db_commands (trace r) = [DeleteCommand "c1" "Connections"]
  /\ unsubscribes (trace r) = ["c1"]
  /\ fst (result r) = Normal tt.
Proof.
  cbn zeta.
  assert (Hclient : apiGatewayManager Sample.manager_with_client = Some Sample.client)
    by reflexivity.
  assert (Hpost : Reference.handle _
                    (ApiSend Sample.client (PostToConnectionCommand "c1" "hello"))
                    (Sample.stale_world)
                  = (inl Reference.gone_exception, Sample.stale_world))
    by reflexivity.
  split; [split; assumption |].
  exact (sendToConnection_gone_or_rethrow Reference.handle (Sample.stale_world)
           (Sample.stale_world) Sample.manager_with_client Sample.client Sample.stored
           "hello" Reference.gone_exception Hclient Hpost).
Defined.

(** The other branch of C7 at work: a throttled post is thrown as it is,
    and the record and the subscriptions of ["c1"] stay. *)
Example sendToConnection_rethrows_throttled :
  let post := ApiSend Sample.client (PostToConnectionCommand "c1" "hello") in
  let w := Sample.throttled_world in
  let r := run Reference.handle
             (sendToConnection Sample.stored "hello" Sample.manager_with_client) w in
  result r = (Thrown Sample.throttled, Sample.manager_with_client)
  /\ trace r = [Interact post (inl Sample.throttled)]
  /\ Reference.tables (final r) = Reference.tables w
  /\ Reference.registry (final r) = Reference.registry w.
Proof.
  cbn zeta. split; [| split; [| split]]; reflexivity.
Qed.

(** ** closeConnection *)

(** C8.  [closeConnection] sends no command to the store and makes no call
    to the subscription manager; the only command it sends to the transport
    is the [DeleteConnectionCommand] for the connection's id, through the
    configured client.  In the reference store and registry, records and
    subscriptions are as before. *)
Theorem closeConnection_transport_only (this : DynamoDBConnectionManager)
    (connection : DynamoDBConnection) :
  (forall S (h : Handler S) (s : S),
     let r := run h (closeConnection connection this) s in
     db_commands (trace r) = []
     /\ unsubscribes (trace r) = []
     /\ api_commands (trace r)
        = match apiGatewayManager this with
          | Some client => [(client, DeleteConnectionCommand (conn_id connection))]
          | None => []
          end)
  /\ (forall w : Reference.World,
        let r := run Reference.handle (closeConnection connection this) w in
        Reference.tables (final r) = Reference.tables w
        /\ Reference.registry (final r) = Reference.registry w).
Proof.
  split.
  - intros S h s. unfold closeConnection, createApiGatewayManager.
    destruct this as [[client |] table seconds []]; cbn; answer h;
      repeat match goal with x : JsError + unit |- _ => destruct x; cbn end;
      repeat split.
  - intros w. unfold closeConnection, createApiGatewayManager.
    destruct this as [[client |] table seconds []]; cbn;
      try (split; reflexivity);
      (destruct (Reference.api_fault w _); cbn; [split; reflexivity |];
       destruct (decide (conn_id connection ∈ Reference.sessions w)); cbn;
       split; reflexivity).
Qed.

(** ** createApiGatewayManager *)

(** C10.  Without a configured client, [createApiGatewayManager] logs the
    endpoint and then throws the [ReferenceError] of [endpoint1]: no client
    is stored in [this.apiGatewayManager] and none is returned, so
    [sendToConnection] and [closeConnection] throw that error without
    sending anything to the transport.  A configured client is returned as
    it is, and stays. *)
Theorem createApiGatewayManager_without_client_throws {S} (h : Handler S) (s : S)
    (this : DynamoDBConnectionManager) (endpoint : string) :
  let unresolved := ReferenceError "endpoint1 is not defined" in
  let r := run h (createApiGatewayManager endpoint this) s in
  apiGatewayManager this = None ->
  result r = (Thrown unresolved, this)
  /\ trace r = [Interact (ConsoleInfo [LogString "endpoint"; LogString endpoint]) tt]
  /\ (forall connection payload,
        let r' := run h (sendToConnection connection payload this) s in
        result r' = (Thrown unresolved, this) /\ api_commands (trace r') = [])
  /\ (forall connection,
        let r' := run h (closeConnection connection this) s in
        result r' = (Thrown unresolved, this) /\ api_commands (trace r') = [])
  /\ (forall client,
        let configured := with_apiGatewayManager (Some client) this in
        run h (createApiGatewayManager endpoint configured) s
          = {| result := (Normal client, configured); final := s; trace := [] |}).
Proof.
  cbn zeta. intros Hnone.
  destruct this as [client' table seconds dbg]. cbn in Hnone. subst client'.
  split; [| split; [| split; [| split]]].
  - unfold createApiGatewayManager. cbn. reflexivity.
  - unfold createApiGatewayManager. cbn.
    destruct (h _ (ConsoleInfo [LogString "endpoint"; LogString endpoint]) s) as [[] s1].
    reflexivity.
  - intros connection payload.
    unfold sendToConnection, try_catch, createApiGatewayManager. cbn.
    split; reflexivity.
  - intros connection.
    unfold closeConnection, createApiGatewayManager.
    destruct dbg; cbn; split; reflexivity.
  - intros client. reflexivity.
Qed.

(** C10 at work: the manager built without a client. *)
Lemma createApiGatewayManager_without_client_throws_witness :
  let unresolved := ReferenceError "endpoint1 is not defined" in
  let w := Sample.world_at 0 in
  let r := run Reference.handle (createApiGatewayManager "host/path" Sample.manager) w in
  apiGatewayManager Sample.manager = None
  /\ result r = (Thrown unresolved, Sample.manager)
  /\ trace r = [Interact (ConsoleInfo [LogString "endpoint"; LogString "host/path"]) tt]
  /\ (forall connection payload,
        let r' := run Reference.handle
                    (sendToConnection connection payload Sample.manager) w in
        result r' = (Thrown unresolved, Sample.manager) /\ api_commands (trace r') = [])
  /\ (forall connection,
        let r' := run Reference.handle (closeConnection connection Sample.manager) w in
        result r' = (Thrown unresolved, Sample.manager) /\ api_commands (trace r') = [])
  /\ (forall client,
        let configured := with_apiGatewayManager (Some client) Sample.manager in
        run Reference.handle (createApiGatewayManager "host/path" configured) w
          = {| result := (Normal client, configured); final := w; trace := [] |}).
Proof.
  cbn zeta.
  assert (Hnone : apiGatewayManager Sample.manager = None) by reflexivity.
  split; [assumption |].
  exact (createApiGatewayManager_without_client_throws Reference.handle (Sample.world_at 0)
           Sample.manager "host/path" Hnone).
Defined.

(** * Further properties *)

(** ** Sequencing *)

Lemma run_mbind {S A B} (h : Handler S) (m : M A) (k : A -> M B) this (s : S) :
  let r1 := run h (m this) s in
  run h (mbind m k this) s =
    match fst (result r1) with
    | Normal a =>
        let r2 := run h (k a (snd (result r1))) (final r1) in
        {| result := result r2; final := final r2; trace := trace r1 ++ trace r2 |}
    | Thrown e =>
        {| result := (Thrown e, snd (result r1)); final := final r1;
           trace := trace r1 ++ [] |}
    end.
Proof.
  cbn zeta. unfold mbind. rewrite run_bind. cbn zeta.
  destruct (fst (result (run h (m this) s))); reflexivity.
Qed.

(** ** The shape of a hydration *)

(** No read of absent rounds is rejected, and none finds a record. *)
Lemma absent_rounds_no_answer table connectionId t k :
  (forall e, ~ Exists (read_rejected e) (absent_rounds table connectionId t k))
  /\ (forall c, ~ Exists (read_yields c) (absent_rounds table connectionId t k)).
Proof.
  induction k as [| k [IHr IHy]]; split; intros x Hex.
  - inversion Hex.
  - inversion Hex.
  - cbn in Hex. inversion Hex as [? ? Hhd | ? ? Htl]; subst; [discriminate Hhd |].
    inversion Htl as [? ? Hhd | ? ? Hrest]; subst; [discriminate Hhd |].
    exact (IHr x Hrest).
  - cbn in Hex. inversion Hex as [? ? Hhd | ? ? Htl]; subst; [discriminate Hhd |].
    inversion Htl as [? ? Hhd | ? ? Hrest]; subst; [discriminate Hhd |].
    exact (IHy x Hrest).
Qed.

(** A trace of the loop is some absent rounds, followed by the read that
    ended the loop if one did. *)
Lemma loop_trace_shape table connectionId t n tr c :
  loop_trace table connectionId t n tr c ->
  exists k ending,
    tr = absent_rounds table connectionId t k ++ ending
    /\ match c with
       | Normal None => ending = [] /\ k = n
       | Normal (Some connection) =>
           ending = [Interact (DbSend (GetCommand table connectionId))
                       (inr {| Item := Some connection |})]
           /\ (k < n)%nat
       | Thrown e =>
           ending = [Interact (DbSend (GetCommand table connectionId)) (inl e)]
           /\ (k < n)%nat
       end.
Proof.
  induction 1 as [| n tr c _ (k & ending & -> & Hc) | n connection | n e].
  - exists 0%nat, []. split; [reflexivity | split; reflexivity].
  - exists (S k), ending. split; [reflexivity |].
    destruct c as [[connection |] | e]; destruct Hc as [-> Hk]; split;
      try reflexivity; lia.
  - exists 0%nat. eexists. split; [reflexivity |]. split; [reflexivity | lia].
  - exists 0%nat. eexists. split; [reflexivity |]. split; [reflexivity | lia].
Qed.

(** A run of [hydrateConnection]: absent rounds, then either nothing more
    (all [retryCount + 1] turns taken) or the read that ended the loop and
    the expiry check. *)
Lemma hydrateConnection_shape {S} (h : Handler S) (s : S)
    (this : DynamoDBConnectionManager) (connectionId : string)
    (options : option HydrateConnectionOptions) :
  let R := default 0 (options ≫= retryCount) in
  let t := default 50 (options ≫= timeout) in
  let r := run h (hydrateConnection connectionId options this) s in
  snd (result r) = this
  /\ exists k ending,
       trace r = absent_rounds (connectionsTable this) connectionId t k ++ ending
       /\ ((ending = [] /\ k = Z.to_nat (R + 1)
            /\ fst (result r) = Thrown (not_found connectionId))
           \/ ((k < Z.to_nat (R + 1))%nat
               /\ hydration_end (connectionsTable this) connectionId ending
                    (fst (result r)))).
Proof.
  cbn zeta. rewrite run_hydrateConnection. cbn zeta.
  set (R := default 0 (options ≫= retryCount)).
  set (t := default 50 (options ≫= timeout)).
  destruct (hydrate_loop_trace h connectionId R t this _ 0 s eq_refl) as [Hloop Hthis].
  set (l := run h (hydrate_loop connectionId R t 0 this) s) in *.
  replace (R + 1 - 0) with (R + 1) in Hloop by lia.
  destruct (loop_trace_shape _ _ _ _ _ _ Hloop) as (k & ending & Htr & Hc).
  destruct (fst (result l)) as [[connection |] | e].
  - destruct Hc as [-> Hk].
    destruct (conn_ttl connection) as [expiry |] eqn:Httl; cbn [trace result fst snd].
    + split; [exact Hthis |]. exists k. eexists. split.
      * rewrite Htr, <- app_assoc. reflexivity.
      * right. split; [exact Hk |]. cbn. apply end_with_ttl. exact Httl.
    + split; [exact Hthis |]. exists k. eexists. split.
      * rewrite Htr, app_nil_r. reflexivity.
      * right. split; [exact Hk |]. apply end_without_ttl. exact Httl.
  - destruct Hc as [-> Hk]. cbn [trace result fst snd].
    split; [exact Hthis |]. exists k, []. split.
    + rewrite Htr, app_nil_r. reflexivity.
    + left. repeat split. exact Hk.
  - destruct Hc as [-> Hk]. cbn [trace result fst snd].
    split; [exact Hthis |]. exists k. eexists. split.
    + rewrite Htr, app_nil_r. reflexivity.
    + right. split; [exact Hk | constructor].
Qed.

(** ** hydrateConnection, further *)

(** X1.  With a negative [retryCount] the loop body never runs:
    [hydrateConnection] sends nothing, reads no clock and fails with
    [ConnectionNotFoundError], whatever the table holds. *)
Theorem hydrateConnection_negative_retryCount {S} (h : Handler S) (s : S)
    (this : DynamoDBConnectionManager) (connectionId : string)
    (options : option HydrateConnectionOptions) :
  let r := run h (hydrateConnection connectionId options this) s in
  default 0 (options ≫= retryCount) < 0 ->
  trace r = []
  /\ final r = s
  /\ result r = (Thrown (not_found connectionId), this).
Proof.
  cbn zeta. intros HR.
  rewrite run_hydrateConnection, run_hydrate_loop. cbn zeta.
  destruct (Z_le_dec 0 (default 0 (options ≫= retryCount))) as [Hle | _]; [lia |].
  repeat split.
Qed.

Lemma hydrateConnection_negative_retryCount_witness :
  let options := Some {| retryCount := Some (-1); timeout := None |} in
  let r := run Reference.handle (hydrateConnection "c1" options Sample.manager)
             (Sample.world_at 0) in
  -1 < 0
  /\ trace r = []
  /\ final r = Sample.world_at 0
  /\ result r = (Thrown (not_found "c1"), Sample.manager).
Proof.
  cbn zeta.
  assert (HR : -1 < 0) by lia.
  split; [assumption |].
  exact (hydrateConnection_negative_retryCount Reference.handle (Sample.world_at 0)
           Sample.manager "c1" (Some {| retryCount := Some (-1); timeout := None |}) HR).
Defined.

(** X2.  Whatever the collaborators answer, [hydrateConnection] only reads:
    its store commands are [GetCommand]s for the id in the manager's table,
    at most [retryCount + 1] of them; its delays all last [timeout] and
    there is one after every read but, possibly, the last; it sends nothing
    to the transport, makes no call to the subscription manager and leaves
    the manager as it was. *)
Theorem hydrateConnection_only_reads {W} (h : Handler W) (s : W)
    (this : DynamoDBConnectionManager) (connectionId : string)
    (options : option HydrateConnectionOptions) :
  let R := default 0 (options ≫= retryCount) in
  let t := default 50 (options ≫= timeout) in
  let r := run h (hydrateConnection connectionId options this) s in
  exists reads delays : nat,
    db_commands (trace r)
      = repeat (GetCommand (connectionsTable this) connectionId) reads
    /\ timeouts (trace r) = repeat t delays
    /\ (reads <= Z.to_nat (R + 1))%nat
    /\ (delays <= reads <= S delays)%nat
    /\ api_commands (trace r) = []
    /\ unsubscribes (trace r) = []
    /\ snd (result r) = this.
Proof.
  cbn zeta.
  destruct (hydrateConnection_shape h s this connectionId options)
    as (Hthis & k & ending & Htr & Hend).
  rewrite Htr. clear Htr.
  destruct (absent_rounds_observed (connectionsTable this) connectionId
              (default 50 (options ≫= timeout)) k) as (Hdb & Ht & _ & Ha & Hu & _).
  unfold db_commands, timeouts, api_commands, unsubscribes in *.
  rewrite !omap_app, Hdb, Ht, Ha, Hu.
  destruct Hend as [(-> & Hk & _) | (Hk & Hend)].
  - exists k, k. cbn. rewrite !app_nil_r. repeat split; try lia. exact Hthis.
  - exists (S k), k.
    assert (Hget : forall x : DbCommand, repeat x k ++ [x] = repeat x (S k)).
    { intros x. rewrite <- repeat_cons. reflexivity. }
    destruct Hend; cbn; rewrite Hget, !app_nil_r; repeat split; try lia; exact Hthis.
Qed.

(** X3.  A rejected read is not retried: [hydrateConnection] throws the
    rejection as it is; that read is the last interaction of the run, no
    delay follows it, and every read before it found nothing. *)
Theorem hydrateConnection_rejected_read {S} (h : Handler S) (s : S)
    (this : DynamoDBConnectionManager) (connectionId : string)
    (options : option HydrateConnectionOptions) (e : JsError) :
  let R := default 0 (options ≫= retryCount) in
  let t := default 50 (options ≫= timeout) in
  let r := run h (hydrateConnection connectionId options this) s in
  Exists (read_rejected e) (trace r) ->
  fst (result r) = Thrown e
  /\ exists k : nat,
       Z.of_nat k <= R
       /\ trace r = absent_rounds (connectionsTable this) connectionId t k
                    ++ [Interact (DbSend (GetCommand (connectionsTable this) connectionId))
                          (inl e)].
Proof.
  cbn zeta.
  destruct (hydrateConnection_shape h s this connectionId options)
    as (_ & k & ending & Htr & Hend).
  rewrite Htr. clear Htr. intros Hex.
  apply Exists_app in Hex as [Hex | Hex];
    [destruct (proj1 (absent_rounds_no_answer _ _ _ _) _ Hex) |].
  destruct Hend as [(-> & _ & _) | (Hk & Hend)]; [inversion Hex |].
  destruct Hend as [e' | connection Httl | connection expiry now Httl].
  - inversion Hex as [? ? Hhd | ? ? Htl]; subst; [| inversion Htl].
    unfold read_rejected in Hhd. cbn in Hhd. injection Hhd as ->.
    split; [reflexivity |]. exists k. split; [lia | reflexivity].
  - inversion Hex as [? ? Hhd | ? ? Htl]; subst; [discriminate Hhd | inversion Htl].
  - inversion Hex as [? ? Hhd | ? ? Htl]; subst; [discriminate Hhd |].
    inversion Htl as [? ? Hhd | ? ? Htl']; subst; [discriminate Hhd | inversion Htl'].
Qed.

Lemma hydrateConnection_rejected_read_witness :
  let options := Some {| retryCount := Some 3; timeout := Some 50 |} in
  let w := Sample.faulty_world Sample.reads_refused (fun _ => None) in
  let r := run Reference.handle (hydrateConnection "c1" options Sample.manager) w in
  Exists (read_rejected Sample.internal_error) (trace r)
  /\ fst (result r) = Thrown Sample.internal_error
  /\ exists k : nat,
       Z.of_nat k <= 3
       /\ trace r = absent_rounds "Connections" "c1" 50 k
                    ++ [Interact (DbSend (GetCommand "Connections" "c1"))
                          (inl Sample.internal_error)].
Proof.
  cbn zeta.
  assert (Hex : Exists (read_rejected Sample.internal_error)
                  (trace (run Reference.handle
                            (hydrateConnection "c1"
                               (Some {| retryCount := Some 3; timeout := Some 50 |})
                               Sample.manager)
                            (Sample.faulty_world Sample.reads_refused (fun _ => None)))))
    by (apply Exists_cons_hd; reflexivity).
  split; [assumption |].
  exact (hydrateConnection_rejected_read Reference.handle
           (Sample.faulty_world Sample.reads_refused (fun _ => None))
           Sample.manager "c1" (Some {| retryCount := Some 3; timeout := Some 50 |})
           Sample.internal_error Hex).
Defined.

(** X4.  What [hydrateConnection] returns is the record of the read that
    ended the loop: every read before it found nothing and was followed by a
    delay, no delay follows it, and the record either has no [ttl] (then no
    clock is read) or its [ttl] is not before the one clock reading. *)
Theorem hydrateConnection_returns_record_read {S} (h : Handler S) (s : S)
    (this : DynamoDBConnectionManager) (connectionId : string)
    (options : option HydrateConnectionOptions) (connection : DynamoDBConnection) :
  let R := default 0 (options ≫= retryCount) in
  let t := default 50 (options ≫= timeout) in
  let r := run h (hydrateConnection connectionId options this) s in
  fst (result r) = Normal connection ->
  exists (k : nat) (check : list Interaction),
    Z.of_nat k <= R
    /\ trace r = absent_rounds (connectionsTable this) connectionId t k
                 ++ Interact (DbSend (GetCommand (connectionsTable this) connectionId))
                      (inr {| Item := Some connection |})
                 :: check
    /\ ((conn_ttl connection = None /\ check = [])
        \/ exists expiry now,
             conn_ttl connection = Some expiry
             /\ check = [Interact DateNow now]
             /\ now <= expiry).
Proof.
  cbn zeta.
  destruct (hydrateConnection_shape h s this connectionId options)
    as (_ & k & ending & Htr & Hend).
  rewrite Htr. clear Htr. intros Hres.
  destruct Hend as [(_ & _ & Hnf) | (Hk & Hend)]; [congruence |].
  rewrite Hres in Hend.
  remember (Normal connection) as c eqn:Hc.
  destruct Hend as [e | connection' Httl | connection' expiry now Httl].
  - discriminate Hc.
  - injection Hc as ->. exists k, []. split; [lia |]. split; [reflexivity |].
    left. split; [exact Httl | reflexivity].
  - destruct (Z.ltb_spec expiry now) as [Hlt | Hge]; [discriminate Hc |].
    injection Hc as ->. exists k. eexists. split; [lia |]. split; [reflexivity |].
    right. exists expiry, now. repeat split; [exact Httl | lia].
Qed.

(** X5.  When a read finds a record that has no [ttl], or whose [ttl] is not
    before the clock reading of the check, [hydrateConnection] returns that
    record. *)
Theorem hydrateConnection_returns_live_record {S} (h : Handler S) (s : S)
    (this : DynamoDBConnectionManager) (connectionId : string)
    (options : option HydrateConnectionOptions) (connection : DynamoDBConnection) :
  let r := run h (hydrateConnection connectionId options this) s in
  Exists (read_yields connection) (trace r) ->
  (forall expiry now,
     conn_ttl connection = Some expiry ->
     In now (clock_readings (trace r)) ->
     now <= expiry) ->
  fst (result r) = Normal connection.
Proof.
  cbn zeta.
  destruct (hydrateConnection_shape h s this connectionId options)
    as (_ & k & ending & Htr & Hend).
  rewrite Htr. clear Htr. intros Hex Hlive.
  apply Exists_app in Hex as [Hex | Hex];
    [destruct (proj2 (absent_rounds_no_answer _ _ _ _) _ Hex) |].
  destruct Hend as [(-> & _ & _) | (Hk & Hend)]; [inversion Hex |].
  destruct Hend as [e | connection' Httl | connection' expiry now Httl].
  - inversion Hex as [? ? Hhd | ? ? Htl]; subst; [discriminate Hhd | inversion Htl].
  - inversion Hex as [? ? Hhd | ? ? Htl]; subst; [| inversion Htl].
    unfold read_yields in Hhd. cbn in Hhd. injection Hhd as ->. reflexivity.
  - inversion Hex as [? ? Hhd | ? ? Htl]; subst.
    + unfold read_yields in Hhd. cbn in Hhd. injection Hhd as ->.
      assert (Hnow : now <= expiry).
      { apply Hlive; [exact Httl |].
        unfold clock_readings. rewrite omap_app.
        apply in_or_app. right. left. reflexivity. }
      destruct (Z.ltb_spec expiry now) as [Hlt | Hge]; [lia | reflexivity].
    + inversion Htl as [? ? Hhd | ? ? Htl']; subst; [discriminate Hhd | inversion Htl'].
Qed.

(** At second 8200 the record of ["c1"], whose [ttl] is 8200, is still
    returned. *)
Lemma hydrateConnection_returns_live_record_witness :
  let r := run Reference.handle (hydrateConnection "c1" None Sample.manager)
             (Sample.world_at 8200000) in
  Exists (read_yields Sample.stored) (trace r)
  /\ (forall expiry now,
        conn_ttl Sample.stored = Some expiry ->
        In now (clock_readings (trace r)) ->
        now <= expiry)
  /\ fst (result r) = Normal Sample.stored.
Proof.
  cbn zeta.
  assert (Hex : Exists (read_yields Sample.stored)
                  (trace (run Reference.handle (hydrateConnection "c1" None Sample.manager)
                            (Sample.world_at 8200000))))
    by (apply Exists_cons_hd; reflexivity).
  assert (Hlive : forall expiry now,
             conn_ttl Sample.stored = Some expiry ->
             In now (clock_readings
                       (trace (run Reference.handle
                                 (hydrateConnection "c1" None Sample.manager)
                                 (Sample.world_at 8200000)))) ->
             now <= expiry).
  { intros expiry now Httl Hnow.
    vm_compute in Httl. injection Httl as <-.
    vm_compute in Hnow. destruct Hnow as [<- | []]. lia. }
  split; [assumption |]. split; [assumption |].
  exact (hydrateConnection_returns_live_record Reference.handle (Sample.world_at 8200000)
           Sample.manager "c1" None Sample.stored Hex Hlive).
Defined.

Lemma hydrateConnection_returns_record_read_witness :
  let r := run Reference.handle (hydrateConnection "c1" None Sample.manager)
             (Sample.world_at 8200000) in
  fst (result r) = Normal Sample.stored
  /\ exists (k : nat) (check : list Interaction),
       Z.of_nat k <= 0
       /\ trace r = absent_rounds "Connections" "c1" 50 k
                    ++ Interact (DbSend (GetCommand "Connections" "c1"))
                         (inr {| Item := Some Sample.stored |})
                    :: check
       /\ ((conn_ttl Sample.stored = None /\ check = [])
           \/ exists expiry now,
                conn_ttl Sample.stored = Some expiry
                /\ check = [Interact DateNow now]
                /\ now <= expiry).
Proof.
  cbn zeta.
  assert (Hres : fst (result (run Reference.handle
                                (hydrateConnection "c1" None Sample.manager)
                                (Sample.world_at 8200000)))
                 = Normal Sample.stored) by (vm_compute; reflexivity).
  split; [assumption |].
  exact (hydrateConnection_returns_record_read Reference.handle (Sample.world_at 8200000)
           Sample.manager "c1" None Sample.stored Hres).
Defined.

(** ** The constructor, further *)

(** A manager that the constructor accepts has no TTL or a positive one. *)
Lemma constructed_ttl_positive options this :
  new_DynamoDBConnectionManager options = inr this ->
  match ttl this with
  | Some seconds => 0 < seconds
  | None => True
  end.
Proof.
  unfold new_DynamoDBConnectionManager.
  destruct (default (Some DEFAULT_TTL) (opt_ttl options)) as [seconds |] eqn:Httl.
  - destruct (Z.ltb_spec 0 seconds) as [Hpos | Hneg]; [| discriminate].
    intros [= <-]. exact Hpos.
  - intros [= <-]. exact I.
Qed.

(** X6.  The constructor fails only on a [ttl] that is a number not above 0
    (0 included), with the [AssertionError] of that check.  Otherwise the
    manager has the options given and the defaults for the others (table
    ["Connections"], TTL 7200 s, no debug), and its TTL is off or
    positive. *)
Theorem constructor_checks_ttl (options : DynamoDBConnectionManagerOptions) :
  match new_DynamoDBConnectionManager options with
  | inr this =>
      apiGatewayManager this = opt_apiGatewayManager options
      /\ connectionsTable this = default "Connections" (opt_connectionsTable options)
      /\ debug this = default false (opt_debug options)
      /\ ttl this = default (Some 7200) (opt_ttl options)
      /\ (ttl this = None \/ exists seconds, ttl this = Some seconds /\ 0 < seconds)
  | inl e =>
      e = AssertionError
            "Please provide ttl as a number greater than 0 or false to turn it off"
      /\ exists seconds, opt_ttl options = Some (Some seconds) /\ seconds <= 0
  end.
Proof.
  unfold new_DynamoDBConnectionManager.
  destruct (opt_ttl options) as [[seconds |] |]; cbn.
  - destruct (Z.ltb_spec 0 seconds) as [Hpos | Hneg]; cbn.
    + repeat split. right. exists seconds. split; [reflexivity | exact Hpos].
    + split; [reflexivity |]. exists seconds. split; [reflexivity | exact Hneg].
  - repeat split. left. reflexivity.
  - repeat split. right. exists 7200. split; [reflexivity | lia].
Qed.

(** ** sendToConnection and closeConnection, further *)

(** X7.  With a client configured, a post that is fulfilled is all that
    [sendToConnection] does: one [PostToConnectionCommand] with the
    connection's id and the payload, through the configured client whatever
    the connection's endpoint, and nothing to the store or the subscription
    manager. *)
Theorem sendToConnection_delivers {S} (h : Handler S) (s s1 : S)
    (this : DynamoDBConnectionManager) (client : ApiGatewayManagementApiClient)
    (connection : DynamoDBConnection) (payload : string) :
  let post := ApiSend client (PostToConnectionCommand (conn_id connection) payload) in
  let r := run h (sendToConnection connection payload this) s in
  apiGatewayManager this = Some client ->
  h _ post s = (inr tt, s1) ->
  result r = (Normal tt, this)
  /\ final r = s1
  /\ trace r = [Interact post (inr tt)]
  /\ db_commands (trace r) = []
  /\ unsubscribes (trace r) = [].
Proof.
  cbn zeta. intros Hclient Hpost.
  destruct this as [client' table seconds dbg]. cbn in Hclient. subst client'.
  unfold sendToConnection, try_catch, createApiGatewayManager.
  cbn. rewrite Hpost. cbn. repeat split.
Qed.

Lemma sendToConnection_delivers_witness :
  let post := ApiSend Sample.client (PostToConnectionCommand "c1" "hello") in
  let w := Sample.connected_world 0 in
  let r := run Reference.handle
             (sendToConnection Sample.stored "hello" Sample.manager_with_client) w in
  (apiGatewayManager Sample.manager_with_client = Some Sample.client
   /\ Reference.handle _ post w = (inr tt, w))
  /\ result r = (Normal tt, Sample.manager_with_client)
  /\ final r = w
  /\ trace r = [Interact post (inr tt)]
  /\ db_commands (trace r) = []
  /\ unsubscribes (trace r) = [].
Proof.
  cbn zeta.
  assert (Hclient : apiGatewayManager Sample.manager_with_client = Some Sample.client)
    by reflexivity.
  assert (Hpost : Reference.handle _
                    (ApiSend Sample.client (PostToConnectionCommand "c1" "hello"))
                    (Sample.connected_world 0)
                  = (inr tt, Sample.connected_world 0))
    by reflexivity.
  split; [split; assumption |].
  exact (sendToConnection_delivers Reference.handle (Sample.connected_world 0)
           (Sample.connected_world 0) Sample.manager_with_client Sample.client
           Sample.stored "hello" Hclient Hpost).
Defined.

(** X8.  With a client configured, [closeConnection] completes as the
    [DeleteConnectionCommand] does: a rejection is thrown as it is, also
    one with status 410, and no cleanup follows; the log line is written
    first when [debug] is on. *)
Theorem closeConnection_completes_as_transport {S} (h : Handler S) (s : S)
    (this : DynamoDBConnectionManager) (client : ApiGatewayManagementApiClient)
    (connection : DynamoDBConnection) :
  let log := ConsoleLog [LogString "Disconnected "; LogString (conn_id connection)] in
  let terminate := ApiSend client (DeleteConnectionCommand (conn_id connection)) in
  let s0 := if debug this then snd (h _ log s) else s in
  let x := h _ terminate s0 in
  let r := run h (closeConnection connection this) s in
  apiGatewayManager this = Some client ->
  result r = (match fst x with
              | inl e => Thrown e
              | inr _ => Normal tt
              end, this)
  /\ final r = snd x
  /\ trace r = (if debug this then [Interact log tt] else [])
               ++ [Interact terminate (fst x)].
Proof.
  cbn zeta. intros Hclient.
  destruct this as [client' table seconds dbg]. cbn in Hclient. subst client'.
  unfold closeConnection, createApiGatewayManager.
  destruct dbg; cbn.
  - destruct (h _ (ConsoleLog _) s) as [[] s0]; cbn.
    destruct (h _ (ApiSend client _) s0) as [[e | []] s1]; cbn; repeat split.
  - destruct (h _ (ApiSend client _) s) as [[e | []] s1]; cbn; repeat split.
Qed.

(** The client refuses the termination with [statusCode] 410, which
    [closeConnection] throws; the record stays. *)
Lemma closeConnection_completes_as_transport_witness :
  let terminate := ApiSend Sample.client (DeleteConnectionCommand "c1") in
  let w := Sample.stale_world in
  let r := run Reference.handle (closeConnection Sample.stored Sample.manager_with_client) w in
  apiGatewayManager Sample.manager_with_client = Some Sample.client
  /\ result r = (Thrown Reference.gone_exception, Sample.manager_with_client)
  /\ final r = w
  /\ trace r = [Interact terminate (inl Reference.gone_exception)].
Proof.
  cbn zeta.
  assert (Hclient : apiGatewayManager Sample.manager_with_client = Some Sample.client)
    by reflexivity.
  split; [assumption |].
  exact (closeConnection_completes_as_transport Reference.handle (Sample.stale_world)
           Sample.manager_with_client Sample.client Sample.stored Hclient).
Defined.

(** ** The manager object *)

(** X9.  No method changes a field of the manager, whatever the
    collaborators answer and however the method completes: a configured
    client stays, and without one [this.apiGatewayManager] is never
    assigned. *)
Theorem methods_leave_manager_unchanged {S} (h : Handler S) (s : S)
    (this : DynamoDBConnectionManager) :
  (forall connectionId options,
     snd (result (run h (hydrateConnection connectionId options this) s)) = this)
  /\ (forall data connection,
        snd (result (run h (setConnectionData data connection this) s)) = this)
  /\ (forall event,
        snd (result (run h (registerConnection event this) s)) = this)
  /\ (forall connection payload,
        snd (result (run h (sendToConnection connection payload this) s)) = this)
  /\ (forall connection,
        snd (result (run h (unregisterConnection connection this) s)) = this)
  /\ (forall connection,
        snd (result (run h (closeConnection connection this) s)) = this).
Proof.
  split; [| split; [| split; [| split; [| split]]]].
  - intros connectionId options.
    apply (hydrateConnection_shape h s this connectionId options).
  - intros data connection. unfold setConnectionData. cbn.
    answer h. destruct x; reflexivity.
  - intros event. unfold registerConnection.
    destruct this as [client table [seconds |] []]; cbn; answer h;
      repeat match goal with x : JsError + DbOutput |- _ => destruct x; cbn end;
      reflexivity.
  - intros connection payload.
    unfold sendToConnection, try_catch, createApiGatewayManager, unregisterConnection.
    destruct this as [[client |] table seconds dbg]; cbn; [| reflexivity].
    destruct (h _ (ApiSend client _) s) as [[e | []] s1]; cbn; [| reflexivity].
    destruct (decide (statusCode e = Some 410)); cbn; [| reflexivity].
    destruct (h _ (DbSend _) s1) as [[e1 | o1] s2]; cbn;
      destruct (h _ (UnsubscribeAllByConnectionId _) s2) as [[e2 | o2] s3]; cbn;
      reflexivity.
  - intros connection. unfold unregisterConnection. cbn.
    destruct (h _ (DbSend _) s) as [[e1 | o1] s2]; cbn;
      destruct (h _ (UnsubscribeAllByConnectionId _) s2) as [[e2 | o2] s3]; cbn;
      reflexivity.
  - intros connection. unfold closeConnection, createApiGatewayManager.
    destruct this as [[client |] table seconds []]; cbn; answer h;
      repeat match goal with x : JsError + unit |- _ => destruct x; cbn end;
      reflexivity.
Qed.

(** ** unregisterConnection in the reference store and registry *)

(** X10.  There is no rollback.  When the delete is rejected and the
    unsubscription is not, [unregisterConnection] throws the rejection, the
    table is as before and the subscriptions of the id are gone. *)
Theorem unregisterConnection_delete_rejected (w : Reference.World)
    (this : DynamoDBConnectionManager) (connection : DynamoDBConnection) (e : JsError) :
  let r := run Reference.handle (unregisterConnection connection this) w in
  Reference.db_fault w (DeleteCommand (conn_id connection) (connectionsTable this)) = Some e ->
  Reference.unsubscribe_fault w (conn_id connection) = None ->
  result r = (Thrown e, this)
  /\ Reference.tables (final r) = Reference.tables w
  /\ Reference.registry (final r) = delete (conn_id connection) (Reference.registry w).
Proof.
  cbn zeta. intros Hdelete Hunsubscribe.
  unfold unregisterConnection. cbn. rewrite Hdelete. cbn. rewrite Hunsubscribe. cbn.
  repeat split.
Qed.

Lemma unregisterConnection_delete_rejected_witness :
  let w := Sample.faulty_world Sample.deletes_refused (fun _ => None) in
  let r := run Reference.handle (unregisterConnection Sample.stored Sample.manager) w in
  (Reference.db_fault w (DeleteCommand "c1" "Connections") = Some Sample.internal_error
   /\ Reference.unsubscribe_fault w "c1" = None)
  /\ result r = (Thrown Sample.internal_error, Sample.manager)
  /\ Reference.tables (final r) = Reference.tables w
  /\ Reference.registry (final r) = delete "c1" (Reference.registry w).
Proof.
  cbn zeta.
  assert (Hdelete : Reference.db_fault
                      (Sample.faulty_world Sample.deletes_refused (fun _ => None))
                      (DeleteCommand "c1" "Connections")
                    = Some Sample.internal_error) by reflexivity.
  assert (Hunsubscribe : Reference.unsubscribe_fault
                           (Sample.faulty_world Sample.deletes_refused (fun _ => None))
                           "c1"
                         = None) by reflexivity.
  split; [split; assumption |].
  exact (unregisterConnection_delete_rejected
           (Sample.faulty_world Sample.deletes_refused (fun _ => None))
           Sample.manager Sample.stored Sample.internal_error Hdelete Hunsubscribe).
Defined.

(** X11.  The other way round: when the unsubscription is rejected and the
    delete is not, [unregisterConnection] throws the rejection, the record is
    gone and the subscriptions are as before. *)
Theorem unregisterConnection_unsubscribe_rejected (w : Reference.World)
    (this : DynamoDBConnectionManager) (connection : DynamoDBConnection) (e : JsError) :
  let r := run Reference.handle (unregisterConnection connection this) w in
  Reference.db_fault w (DeleteCommand (conn_id connection) (connectionsTable this)) = None ->
  Reference.unsubscribe_fault w (conn_id connection) = Some e ->
  result r = (Thrown e, this)
  /\ Reference.tables (final r)
     = delete (connectionsTable this, conn_id connection) (Reference.tables w)
  /\ Reference.registry (final r) = Reference.registry w.
Proof.
  cbn zeta. intros Hdelete Hunsubscribe.
  unfold unregisterConnection. cbn. rewrite Hdelete. cbn. rewrite Hunsubscribe. cbn.
  repeat split.
Qed.

Lemma unregisterConnection_unsubscribe_rejected_witness :
  let w := Sample.faulty_world (fun _ => None) (fun _ => Some Sample.registry_error) in
  let r := run Reference.handle (unregisterConnection Sample.stored Sample.manager) w in
  (Reference.db_fault w (DeleteCommand "c1" "Connections") = None
   /\ Reference.unsubscribe_fault w "c1" = Some Sample.registry_error)
  /\ result r = (Thrown Sample.registry_error, Sample.manager)
  /\ Reference.tables (final r) = delete ("Connections", "c1") (Reference.tables w)
  /\ Reference.registry (final r) = Reference.registry w.
Proof.
  cbn zeta.
  assert (Hdelete : Reference.db_fault
                      (Sample.faulty_world (fun _ => None)
                         (fun _ => Some Sample.registry_error))
                      (DeleteCommand "c1" "Connections")
                    = None) by reflexivity.
  assert (Hunsubscribe : Reference.unsubscribe_fault
                           (Sample.faulty_world (fun _ => None)
                              (fun _ => Some Sample.registry_error))
                           "c1"
                         = Some Sample.registry_error) by reflexivity.
  split; [split; assumption |].
  exact (unregisterConnection_unsubscribe_rejected
           (Sample.faulty_world (fun _ => None) (fun _ => Some Sample.registry_error))
           Sample.manager Sample.stored Sample.registry_error Hdelete Hunsubscribe).
Defined.

(** X12.  When nothing fails, [unregisterConnection] removes the record and
    the subscriptions of the id, whether they were there or not, and
    completes normally; a second call completes normally too and changes
    nothing more. *)
Theorem unregisterConnection_twice (this : DynamoDBConnectionManager)
    (connection : DynamoDBConnection)
    (tables : gmap (string * string) DynamoDBConnection)
    (registry : gmap string (list string)) (sessions : gset string) (now_ms : Z) :
  let w := Reference.world tables registry sessions now_ms in
  let r1 := run Reference.handle (unregisterConnection connection this) w in
  let r2 := run Reference.handle (unregisterConnection connection this) (final r1) in
  result r1 = (Normal tt, this)
  /\ Reference.tables (final r1) = delete (connectionsTable this, conn_id connection) tables
  /\ Reference.registry (final r1) = delete (conn_id connection) registry
  /\ result r2 = (Normal tt, this)
  /\ final r2 = final r1.
Proof.
  cbn zeta. unfold unregisterConnection. cbn.
  repeat split.
  unfold Reference.with_registry, Reference.with_tables, Reference.world. cbn.
  rewrite !delete_delete_eq. reflexivity.
Qed.

(** ** sendToConnection through the reference transport *)

(** The reference transport refuses a post to a session that is not open
    with a [GoneException] without [statusCode]: [sendToConnection] throws
    it, and the record and the subscriptions of ["c1"] stay. *)
Example sendToConnection_closed_session_rethrows :
  let post := ApiSend Sample.client (PostToConnectionCommand "c1" "hello") in
  let w := Sample.world_at 0 in
  let r := run Reference.handle
             (sendToConnection Sample.stored "hello" Sample.manager_with_client) w in
  result r = (Thrown Reference.closed_session_exception, Sample.manager_with_client)
  /\ trace r = [Interact post (inl Reference.closed_session_exception)]
  /\ final r = w.
Proof.
  cbn zeta. split; [| split]; reflexivity.
Qed.

(** ** Sequences of calls in the reference store *)

(** X14.  Last writer wins.  After two [registerConnection] calls for the
    same id, the table holds under that id the item of the second call, with
    the second event's endpoint and nothing of the first; the other records
    are those from before. *)
Theorem registerConnection_last_writer_wins (this : DynamoDBConnectionManager)
    (first second : IConnectEvent)
    (tables : gmap (string * string) DynamoDBConnection)
    (registry : gmap string (list string)) (sessions : gset string) (now_ms : Z) :
  let w := Reference.world tables registry sessions now_ms in
  let r := run Reference.handle
             ((registerConnection first ;; registerConnection second) this) w in
  ev_connectionId first = ev_connectionId second ->
  fst (result r)
    = Normal {| conn_id := ev_connectionId second;
                conn_data := {| endpoint := ev_endpoint second; context := ∅;
                                isInitialized := false |};
                conn_createdAt := None;
                conn_ttl := None |}
  /\ Reference.tables (final r)
     = <[(connectionsTable this, ev_connectionId second) :=
           {| conn_id := ev_connectionId second;
              conn_data := {| endpoint := ev_endpoint second; context := ∅;
                              isInitialized := false |};
              conn_createdAt := Some (now_ms / 1000);
              conn_ttl := (fun seconds => now_ms / 1000 + seconds) <$> ttl this |}]>
         tables.
Proof.
  cbn zeta. intros Hid. unfold registerConnection. rewrite Hid.
  destruct this as [client table [seconds |] []]; cbn;
    (split; [reflexivity |]);
    unfold Reference.with_tables; cbn; rewrite insert_insert_eq; reflexivity.
Qed.

Lemma registerConnection_last_writer_wins_witness :
  let w := Sample.world_at 5000 in
  let r := run Reference.handle
             ((registerConnection Sample.connect ;; registerConnection Sample.reconnect)
                Sample.manager) w in
  ev_connectionId Sample.connect = ev_connectionId Sample.reconnect
  /\ fst (result r)
     = Normal {| conn_id := "c1";
                 conn_data := {| endpoint := "wss://other/path"; context := ∅;
                                 isInitialized := false |};
                 conn_createdAt := None;
                 conn_ttl := None |}
  /\ Reference.tables (final r)
     = <[("Connections", "c1") :=
           {| conn_id := "c1";
              conn_data := {| endpoint := "wss://other/path"; context := ∅;
                              isInitialized := false |};
              conn_createdAt := Some (5000 / 1000);
              conn_ttl := (fun seconds => 5000 / 1000 + seconds) <$> Some 7200 |}]>
         (Reference.tables w).
Proof.
  cbn zeta.
  assert (Hid : ev_connectionId Sample.connect = ev_connectionId Sample.reconnect)
    by reflexivity.
  split; [assumption |].
  exact (registerConnection_last_writer_wins Sample.manager Sample.connect Sample.reconnect
           (Reference.tables (Sample.world_at 5000))
           (Reference.registry (Sample.world_at 5000)) ∅ 5000 Hid).
Defined.

(** The item that [registerConnection] writes at [now_ms]. *)
Lemma reference_registerConnection (this : DynamoDBConnectionManager) (event : IConnectEvent)
    (tables : gmap (string * string) DynamoDBConnection)
    (registry : gmap string (list string)) (sessions : gset string) (now_ms : Z) :
  let data := {| endpoint := ev_endpoint event; context := ∅; isInitialized := false |} in
  let item := {| conn_id := ev_connectionId event;
                 conn_data := data;
                 conn_createdAt := Some (now_ms / 1000);
                 conn_ttl := (fun seconds => now_ms / 1000 + seconds) <$> ttl this |} in
  let r := run Reference.handle (registerConnection event this)
             (Reference.world tables registry sessions now_ms) in
  result r = (Normal {| conn_id := ev_connectionId event; conn_data := data;
                        conn_createdAt := None; conn_ttl := None |}, this)
  /\ final r = Reference.world
                 (<[(connectionsTable this, ev_connectionId event) := item]> tables)
                 registry sessions now_ms
  /\ db_commands (trace r) = [PutCommand (connectionsTable this) item]
  /\ timeouts (trace r) = [].
Proof.
  cbn zeta. unfold registerConnection.
  destruct this as [client table [seconds |] []]; cbn; repeat split.
Qed.

(** A stored record that is not expired is returned at the first read. *)
Lemma reference_hydrateConnection_found (w : Reference.World)
    (this : DynamoDBConnectionManager) (connectionId : string)
    (options : option HydrateConnectionOptions) (connection : DynamoDBConnection) :
  let get := GetCommand (connectionsTable this) connectionId in
  let r := run Reference.handle (hydrateConnection connectionId options this) w in
  0 <= default 0 (options ≫= retryCount) ->
  Reference.db_fault w get = None ->
  Reference.tables w !! (connectionsTable this, connectionId) = Some connection ->
  match conn_ttl connection with
  | Some expiry => Reference.clock_ms w / 1000 <= expiry
  | None => True
  end ->
  result r = (Normal connection, this)
  /\ final r = w
  /\ db_commands (trace r) = [get]
  /\ timeouts (trace r) = [].
Proof.
  cbn zeta. intros HR Hfault Hlookup Hlive.
  rewrite run_hydrateConnection, run_hydrate_loop. cbn zeta.
  destruct (Z_le_dec 0 (default 0 (options ≫= retryCount))) as [_ | Hgt]; [| lia].
  cbn. rewrite Hfault. cbn. rewrite Hlookup. cbn.
  destruct (conn_ttl connection) as [expiry |]; cbn; [| repeat split].
  destruct (Z.ltb_spec expiry (Reference.clock_ms w / 1000)) as [Hlt | Hge]; [lia |].
  repeat split.
Qed.

(** Reads of an id without a record find nothing, turn after turn. *)
Lemma reference_hydrate_loop_absent (this : DynamoDBConnectionManager)
    (connectionId : string) (R t : Z) :
  forall (n : nat) (i : Z) (w : Reference.World),
    n = Z.to_nat (R + 1 - i) ->
    Reference.db_fault w (GetCommand (connectionsTable this) connectionId) = None ->
    Reference.tables w !! (connectionsTable this, connectionId) = None ->
    let r := run Reference.handle (hydrate_loop connectionId R t i this) w in
    Forall read_absent (trace r)
    /\ Reference.tables (final r) = Reference.tables w
    /\ Reference.registry (final r) = Reference.registry w.
Proof.
  induction n as [| n IH]; intros i w Hn Hfault Hlookup; cbn zeta;
    rewrite run_hydrate_loop; cbn zeta.
  - destruct (Z_le_dec i R) as [Hle | _]; [lia |]. repeat split. constructor.
  - destruct (Z_le_dec i R) as [_ | Hgt]; [| lia].
    cbn. rewrite Hfault. cbn. rewrite Hlookup. cbn.
    destruct (IH (i + 1) (Reference.with_clock_ms (Reference.clock_ms w + t) w)
                ltac:(lia) Hfault Hlookup) as (Habs & Htables & Hregistry).
    split; [| split; [exact Htables | exact Hregistry]].
    constructor; [reflexivity |]. constructor; [exact I | exact Habs].
Qed.

(** X15.  Round trip.  For a manager that the constructor accepts and a
    retry count that is not negative: once [registerConnection] has
    completed, [hydrateConnection] of the event's id returns the item
    written, [createdAt] and [ttl] included (which the value returned by
    [registerConnection] lacks), with one read and no delay. *)
Theorem registerConnection_then_hydrateConnection
    (constructor_options : DynamoDBConnectionManagerOptions)
    (this : DynamoDBConnectionManager) (event : IConnectEvent)
    (options : option HydrateConnectionOptions)
    (tables : gmap (string * string) DynamoDBConnection)
    (registry : gmap string (list string)) (sessions : gset string) (now_ms : Z) :
  let item := {| conn_id := ev_connectionId event;
                 conn_data := {| endpoint := ev_endpoint event; context := ∅;
                                 isInitialized := false |};
                 conn_createdAt := Some (now_ms / 1000);
                 conn_ttl := (fun seconds => now_ms / 1000 + seconds) <$> ttl this |} in
  let r := run Reference.handle
             ((connection <- registerConnection event ;;
               hydrateConnection (conn_id connection) options) this)
             (Reference.world tables registry sessions now_ms) in
  new_DynamoDBConnectionManager constructor_options = inr this ->
  0 <= default 0 (options ≫= retryCount) ->
  result r = (Normal item, this)
  /\ db_commands (trace r)
     = [PutCommand (connectionsTable this) item;
        GetCommand (connectionsTable this) (ev_connectionId event)]
  /\ timeouts (trace r) = [].
Proof.
  cbn zeta. intros Hnew HR.
  pose proof (constructed_ttl_positive _ _ Hnew) as Hpos.
  rewrite run_mbind. cbn zeta.
  destruct (reference_registerConnection this event tables registry sessions now_ms)
    as (Hres & Hfinal & Hdb & Ht).
  rewrite Hres, Hfinal. cbn [fst snd conn_id].
  set (item := {| conn_id := ev_connectionId event;
                  conn_data := {| endpoint := ev_endpoint event; context := ∅;
                                  isInitialized := false |};
                  conn_createdAt := Some (now_ms / 1000);
                  conn_ttl := (fun seconds => now_ms / 1000 + seconds) <$> ttl this |})
    in *.
  assert (Hlive : match conn_ttl item with
                  | Some expiry => now_ms / 1000 <= expiry
                  | None => True
                  end).
  { cbn. destruct (ttl this) as [seconds |]; cbn; [lia | exact I]. }
  destruct (reference_hydrateConnection_found
              (Reference.world
                 (<[(connectionsTable this, ev_connectionId event) := item]> tables)
                 registry sessions now_ms)
              this (ev_connectionId event) options item HR eq_refl
              (lookup_insert_eq _ _ _) Hlive) as (Hres' & _ & Hdb' & Ht').
  cbn [result trace]. rewrite Hres'.
  unfold db_commands, timeouts in *. rewrite !omap_app, Hdb, Ht, Hdb', Ht'.
  repeat split.
Qed.

Lemma registerConnection_then_hydrateConnection_witness :
  let item := {| conn_id := "c1";
                 conn_data := Sample.data;
                 conn_createdAt := Some 5;
                 conn_ttl := Some 7205 |} in
  let r := run Reference.handle
             ((connection <- registerConnection Sample.connect ;;
               hydrateConnection (conn_id connection) None) Sample.manager)
             (Reference.world ∅ ∅ ∅ 5000) in
  (new_DynamoDBConnectionManager
     {| opt_apiGatewayManager := None; opt_connectionsTable := None;
        opt_ttl := None; opt_debug := None |} = inr Sample.manager
   /\ 0 <= 0)
  /\ result r = (Normal item, Sample.manager)
  /\ db_commands (trace r) = [PutCommand "Connections" item; GetCommand "Connections" "c1"]
  /\ timeouts (trace r) = [].
Proof.
  cbn zeta.
  assert (Hnew : new_DynamoDBConnectionManager
                   {| opt_apiGatewayManager := None; opt_connectionsTable := None;
                      opt_ttl := None; opt_debug := None |} = inr Sample.manager)
    by reflexivity.
  assert (HR : 0 <= 0) by lia.
  split; [split; assumption |].
  exact (registerConnection_then_hydrateConnection _ Sample.manager Sample.connect None
           ∅ ∅ ∅ 5000 Hnew HR).
Defined.

(** The update of [setConnectionData] on a stored record. *)
Lemma reference_setConnectionData (this : DynamoDBConnectionManager)
    (data : IConnectionData) (connection stored : DynamoDBConnection)
    (tables : gmap (string * string) DynamoDBConnection)
    (registry : gmap string (list string)) (sessions : gset string) (now_ms : Z) :
  let key := (connectionsTable this, conn_id connection) in
  let update := UpdateCommand (connectionsTable this) (conn_id connection)
                  "set #data = :data" [(":data", data)] [("#data", "data")] in
  let r := run Reference.handle (setConnectionData data connection this)
             (Reference.world tables registry sessions now_ms) in
  tables !! key = Some stored ->
  result r = (Normal tt, this)
  /\ final r = Reference.world
                 (<[key := {| conn_id := conn_id connection;
                              conn_data := data;
                              conn_createdAt := conn_createdAt stored;
                              conn_ttl := conn_ttl stored |}]> tables)
                 registry sessions now_ms
  /\ db_commands (trace r) = [update]
  /\ timeouts (trace r) = [].
Proof.
  cbn zeta. intros Hstored. unfold setConnectionData. cbn.
  rewrite Hstored. cbn. repeat split.
Qed.

(** X16.  From connect to the first message.  For a manager that the
    constructor accepts and a retry count that is not negative: after
    [registerConnection] and [setConnectionData] with the connection it
    returned, [hydrateConnection] returns the record with the data set and
    with the [createdAt] and [ttl] of the registration. *)
Theorem register_set_data_hydrate
    (constructor_options : DynamoDBConnectionManagerOptions)
    (this : DynamoDBConnectionManager) (event : IConnectEvent) (data : IConnectionData)
    (options : option HydrateConnectionOptions)
    (tables : gmap (string * string) DynamoDBConnection)
    (registry : gmap string (list string)) (sessions : gset string) (now_ms : Z) :
  let r := run Reference.handle
             ((connection <- registerConnection event ;;
               setConnectionData data connection ;;
               hydrateConnection (conn_id connection) options) this)
             (Reference.world tables registry sessions now_ms) in
  new_DynamoDBConnectionManager constructor_options = inr this ->
  0 <= default 0 (options ≫= retryCount) ->
  result r
    = (Normal {| conn_id := ev_connectionId event;
                 conn_data := data;
                 conn_createdAt := Some (now_ms / 1000);
                 conn_ttl := (fun seconds => now_ms / 1000 + seconds) <$> ttl this |},
       this)
  /\ length (db_commands (trace r)) = 3%nat
  /\ timeouts (trace r) = [].
Proof.
  cbn zeta. intros Hnew HR.
  pose proof (constructed_ttl_positive _ _ Hnew) as Hpos.
  rewrite run_mbind. cbn zeta.
  destruct (reference_registerConnection this event tables registry sessions now_ms)
    as (Hres & Hfinal & Hdb & Ht).
  rewrite Hres, Hfinal. cbn [fst snd].
  rewrite run_mbind. cbn zeta.
  set (connection := {| conn_id := ev_connectionId event;
                        conn_data := {| endpoint := ev_endpoint event; context := ∅;
                                        isInitialized := false |};
                        conn_createdAt := None; conn_ttl := None |}) in *.
  set (item := {| conn_id := ev_connectionId event;
                  conn_data := {| endpoint := ev_endpoint event; context := ∅;
                                  isInitialized := false |};
                  conn_createdAt := Some (now_ms / 1000);
                  conn_ttl := (fun seconds => now_ms / 1000 + seconds) <$> ttl this |})
    in *.
  destruct (reference_setConnectionData this data connection item
              (<[(connectionsTable this, ev_connectionId event) := item]> tables)
              registry sessions now_ms (lookup_insert_eq _ _ _))
    as (Hres1 & Hfinal1 & Hdb1 & Ht1).
  rewrite Hres1, Hfinal1. subst connection item.
  cbn [fst snd conn_id conn_createdAt conn_ttl].
  set (item := {| conn_id := ev_connectionId event;
                  conn_data := {| endpoint := ev_endpoint event; context := ∅;
                                  isInitialized := false |};
                  conn_createdAt := Some (now_ms / 1000);
                  conn_ttl := (fun seconds => now_ms / 1000 + seconds) <$> ttl this |})
    in *.
  set (updated := {| conn_id := ev_connectionId event;
                     conn_data := data;
                     conn_createdAt := Some (now_ms / 1000);
                     conn_ttl := (fun seconds => now_ms / 1000 + seconds) <$> ttl this |}).
  assert (Hlive : match conn_ttl updated with
                  | Some expiry => now_ms / 1000 <= expiry
                  | None => True
                  end).
  { cbn. destruct (ttl this) as [seconds |]; cbn; [lia | exact I]. }
  destruct (reference_hydrateConnection_found
              (Reference.world
                 (<[(connectionsTable this, ev_connectionId event) := updated]>
                    (<[(connectionsTable this, ev_connectionId event) := item]> tables))
                 registry sessions now_ms)
              this (ev_connectionId event) options updated HR eq_refl
              (lookup_insert_eq _ _ _) Hlive) as (Hres2 & _ & Hdb2 & Ht2).
  cbn [result trace]. rewrite Hres2.
  unfold db_commands, timeouts in *.
  rewrite !omap_app, Hdb, Ht, Hdb1, Ht1, Hdb2, Ht2.
  repeat split.
Qed.

Lemma register_set_data_hydrate_witness :
  let r := run Reference.handle
             ((connection <- registerConnection Sample.connect ;;
               setConnectionData Sample.initialized connection ;;
               hydrateConnection (conn_id connection) None) Sample.manager)
             (Reference.world ∅ ∅ ∅ 5000) in
  (new_DynamoDBConnectionManager
     {| opt_apiGatewayManager := None; opt_connectionsTable := None;
        opt_ttl := None; opt_debug := None |} = inr Sample.manager
   /\ 0 <= 0)
  /\ result r
     = (Normal {| conn_id := "c1";
                  conn_data := Sample.initialized;
                  conn_createdAt := Some 5;
                  conn_ttl := Some 7205 |},
        Sample.manager)
  /\ length (db_commands (trace r)) = 3%nat
  /\ timeouts (trace r) = [].
Proof.
  cbn zeta.
  assert (Hnew : new_DynamoDBConnectionManager
                   {| opt_apiGatewayManager := None; opt_connectionsTable := None;
                      opt_ttl := None; opt_debug := None |} = inr Sample.manager)
    by reflexivity.
  assert (HR : 0 <= 0) by lia.
  split; [split; assumption |].
  exact (register_set_data_hydrate _ Sample.manager Sample.connect Sample.initialized None
           ∅ ∅ ∅ 5000 Hnew HR).
Defined.

(** X17.  After [unregisterConnection], [hydrateConnection] of the id finds
    nothing: it fails with [ConnectionNotFoundError] after [retryCount + 1]
    reads (none when [retryCount] is negative), each followed by a delay;
    neither record nor subscriptions of the id are left. *)
Theorem unregisterConnection_then_hydrateConnection (this : DynamoDBConnectionManager)
    (connection : DynamoDBConnection) (options : option HydrateConnectionOptions)
    (tables : gmap (string * string) DynamoDBConnection)
    (registry : gmap string (list string)) (sessions : gset string) (now_ms : Z) :
  let R := default 0 (options ≫= retryCount) in
  let t := default 50 (options ≫= timeout) in
  let get := GetCommand (connectionsTable this) (conn_id connection) in
  let r := run Reference.handle
             ((unregisterConnection connection ;;
               hydrateConnection (conn_id connection) options) this)
             (Reference.world tables registry sessions now_ms) in
  result r = (Thrown (not_found (conn_id connection)), this)
  /\ db_commands (trace r)
     = DeleteCommand (conn_id connection) (connectionsTable this)
       :: repeat get (Z.to_nat (R + 1))
  /\ timeouts (trace r) = repeat t (Z.to_nat (R + 1))
  /\ Reference.tables (final r) !! (connectionsTable this, conn_id connection) = None
  /\ Reference.registry (final r) !! conn_id connection = None.
Proof.
  cbn zeta. rewrite run_mbind. cbn zeta.
  unfold unregisterConnection at 1 2 3. cbn [fst snd result final trace run mbind bind
    get_this await_Promise_all ret Reference.handle Reference.world Reference.db_fault
    Reference.unsubscribe_fault Reference.db_execute].
  cbn.
  set (w := Reference.with_registry _ _).
  rewrite run_hydrateConnection. cbn zeta.
  set (R := default 0 (options ≫= retryCount)).
  set (t := default 50 (options ≫= timeout)).
  destruct (hydrate_loop_trace Reference.handle (conn_id connection) R t this _ 0 w eq_refl)
    as [Hloop Hthis].
  destruct (reference_hydrate_loop_absent this (conn_id connection) R t _ 0 w eq_refl
              eq_refl (lookup_delete_eq _ _)) as (Habs & Htables & Hregistry).
  destruct (loop_trace_all_absent _ _ _ _ _ _ Hloop Habs) as (Hc & Hdb & Ht & _).
  replace (R + 1 - 0) with (R + 1) in * by lia.
  set (l := run Reference.handle (hydrate_loop (conn_id connection) R t 0 this) w) in *.
  rewrite Hc. cbn [result final trace fst snd].
  unfold db_commands, timeouts in *. cbn [omap list_omap app].
  rewrite app_nil_r, Hdb, Ht, Htables, Hregistry, Hthis.
  repeat split.
  - apply lookup_delete_eq.
  - apply lookup_delete_eq.
Qed.
